(** * chat-with-review: the conversation turn controller

    A shallow embedding of [src/chat-with-review.py].  One run of the
    script's [main] is one UI refresh cycle.  The Streamlit session state
    that survives between reruns is an explicit [session]; the widgets'
    values and the collaborators built anew on every rerun are the fields
    of a [cycle]; exceptions are values of [exception]; every call that
    leaves the controller (File Context Builder, Prompt Formatter, Model
    Client) is recorded in the session's [calls]. *)

From Stdlib Require Import String Ascii List Bool Arith Lia.
From Stdlib Require Import ZArith DecimalString.
Import ListNotations.
Open Scope string_scope.

(** ** Strings *)

Definition LF : string := String (ascii_of_nat 10) EmptyString.

(** ** Data model *)

(** A file selected in the uploader widget
    ([st.runtime.uploaded_file_manager.UploadedFile]). *)
Record UploadedFile : Type := {
  file_id : string;
  name : string;
  mime : string;
  data : string
}.

(** A content part: [{"type": "text", "text": t}] or
    [{"type": "image", "source": s}].  Lines 135-138 look at the tag and
    take every part that is not text as an image part. *)
Inductive content_file : Type :=
| text_part (text : string)
| image_part (source : string).

Inductive message_content : Type :=
| Text (s : string)
| Parts (parts : list content_file).

(** An entry of [st.session_state.messages]; [images = None] is a dict
    without the ["images"] key. *)
Record message : Type := {
  role : string;
  content : message_content;
  images : option (list string)
}.

(** Lines 18-21. *)
Definition INIT_MESSAGE : message := {|
  role := "assistant";
  content := Text "안녕하세요! 저는 Bedrock AI 기반 리뷰 분석 챗봇입니다. 무엇을 도와드릴까요?";
  images := None
|}.

(** What [conversation.invoke] does with a payload: it returns the
    response or raises. *)
Inductive model_outcome : Type :=
| Completed (response : string)
| Failed (error : string).

Inductive exception : Type :=
| AttributeError (key : string)
| IndexError
| UnboundLocalError (variable : string)
| ModelError (error : string).

(** Calls that leave the controller. *)
Inductive event : Type :=
| FileContextBuilder (unprocessed : list UploadedFile)
| PromptFormatter (input : string)
| ModelClient (payload : list message).

(** [messages = None]: the key is not yet in [st.session_state]. *)
Record session : Type := {
  messages : option (list message);
  calls : list event
}.

Definition new_session : session := {| messages := None; calls := [] |}.

(** What one rerun of the script sees: the chat input (line 112), the
    uploader's selection (line 78), the [chat_model] of line 94 and the
    conversation chain of line 95. *)
Record cycle : Type := {
  prompt : option string;
  uploaded_files : list UploadedFile;
  format_prompt : string -> list content_file;
  conversation : list message -> model_outcome
}.

(** ** State and exceptions *)

Inductive result (A : Type) : Type :=
| Returned (a : A)
| Raised (e : exception).
Arguments Returned {A} a.
Arguments Raised {A} e.

Definition M (A : Type) : Type := session -> result A * session.

Definition ret {A} (a : A) : M A := fun s => (Returned a, s).

Definition raise {A} (e : exception) : M A := fun s => (Raised e, s).

Definition bind {A B} (m : M A) (k : A -> M B) : M B :=
  fun s =>
    match m s with
    | (Returned a, s') => k a s'
    | (Raised e, s') => (Raised e, s')
    end.

Notation "x <- m ;; k" := (bind m (fun x => k))
  (at level 61, m at next level, right associativity).
Notation "' pat <- m ;; k" := (bind m (fun x => match x with pat => k end))
  (at level 61, pat pattern, m at next level, right associativity).
Notation "m ;; k" := (bind m (fun _ => k))
  (at level 61, right associativity).

Definition emit (e : event) : M unit :=
  fun s => (Returned tt, {| messages := messages s; calls := (calls s ++ [e])%list |}).

Definition get_messages : M (list message) :=
  fun s =>
    match messages s with
    | Some l => (Returned l, s)
    | None => (Raised (AttributeError "messages"), s)
    end.

(** [st.session_state.messages.append(m)] *)
Definition append_message (m : message) : M unit :=
  fun s =>
    match messages s with
    | Some l => (Returned tt, {| messages := Some (l ++ [m])%list; calls := calls s |})
    | None => (Raised (AttributeError "messages"), s)
    end.

(** Lines 105-106. *)
Definition seed_messages : M unit :=
  fun s =>
    match messages s with
    | Some _ => (Returned tt, s)
    | None => (Returned tt, {| messages := Some [INIT_MESSAGE]; calls := calls s |})
    end.

(** [l[-1]] *)
Definition last_item {A} (l : list A) : M A :=
  match rev l with
  | x :: _ => ret x
  | [] => raise IndexError
  end.

(** Reading a local variable that may not have been assigned. *)
Definition read_local {A} (variable : string) (v : option A) : M A :=
  match v with
  | Some a => ret a
  | None => raise (UnboundLocalError variable)
  end.

(** ** Pure parts of the script *)

Definition is_empty {A} (l : list A) : bool :=
  match l with [] => true | _ => false end.

(** Python truthiness of the chat input: [None] and [""] are falsy. *)
Definition truthy (p : option string) : option string :=
  match p with
  | Some s => if s =? "" then None else Some s
  | None => None
  end.

(** The identifiers a message contributes to line 115's comprehension. *)
Definition message_images (m : message) : list string :=
  if role m =? "user" then
    match images m with
    | Some ids => if is_empty ids then [] else ids
    | None => []
    end
  else [].

(** Lines 115-122. *)
Definition message_images_list (msgs : list message) : list string :=
  flat_map message_images msgs.

(** Lines 134-138, one turn of the loop. *)
Definition partition_step (acc : string * list content_file) (item : content_file)
  : string * list content_file :=
  let '(context_text, context_image) := acc in
  match item with
  | text_part text => (context_text ++ text ++ LF ++ LF, context_image)
  | _ => (context_text, (context_image ++ [item])%list)
  end.

(** Lines 132-138. *)
Definition partition_context (content_files : list content_file)
  : string * list content_file :=
  fold_left partition_step content_files ("", []).

(** Lines 140-143. *)
Definition prompt_new (context_text prompt : string) : string :=
  if negb (context_text =? "") then
    "Here is some context for you: " ++ LF ++ "<context>" ++ LF ++
    context_text ++ "</context>" ++ LF ++ LF ++ prompt
  else prompt.

(** Line 125. *)
Definition has_new_files (message_images_list : list string)
  (uploaded_files : list UploadedFile) : bool :=
  negb (is_empty uploaded_files)
  && (length message_images_list <? length uploaded_files)%nat.

(** Lines 35-52; [radio_option] is what [st.radio] returned at line 36. *)
Definition radio_options : list string := ["Summarize"; "Analyze"; "Recommend"].

Definition summarize_prompt : string :=
  "Provide a summary of the reviews in a natural, conversational style within 3 sentences, as if it were a user review without annotation. " ++ LF ++
  "        Please avoid listing features, and instead, integrate the key selling points naturally into the narrative.".

Definition analyze_prompt : string :=
  "Analyze the pros and cons of the product based on the reviews, and present them in bullet points." ++ LF ++
  "        Also identify the sentiment of the given reviews by identifying the positive and negative keywords used. " ++ LF ++
  "        Calculate and present the ratio of positive to negative keywords. Answer in Korean.".

Definition recommend_prompt : string :=
  "Extract the typical 'Time', 'Place', 'Occasion', and 'Recommended for' when the product is used or consumed." ++ LF ++
  "        Please extract the most diverse set of high-frequency keywords from the text" ++ LF ++
  "        Answer in Korean.".

Definition define_system_prompt (radio_option : string) : string :=
  if radio_option =? "Summarize" then summarize_prompt
  else if radio_option =? "Analyze" then analyze_prompt
  else if radio_option =? "Recommend" then recommend_prompt
  else "".

(** ** The File Context Builder *)

Section TurnController.

(** What the builder extracts from one file, if anything. *)
Variable extract : UploadedFile -> option content_file.

(** Modelled from the spec: the test inside [process_uploaded_files]
    ([libs/file_utils.py], not part of the sources) that a file's id is
    among the already processed ones. *)
Definition processed (message_images_list : list string) (f : UploadedFile) : bool :=
  existsb (String.eqb (file_id f)) message_images_list.

(** Modelled from the spec: step 1 of the controller's algorithm, the
    uploaded files filtered by id not in the processed ones; in the code it
    is part of the missing [process_uploaded_files]. *)
Definition unprocessed (uploaded_files : list UploadedFile)
  (message_images_list : list string) : list UploadedFile :=
  filter (fun f => negb (processed message_images_list f)) uploaded_files.

(** The builder's content items for a list of files, in input order. *)
Fixpoint extract_all (files : list UploadedFile) : list content_file :=
  match files with
  | [] => []
  | f :: rest =>
      match extract f with
      | Some item => item :: extract_all rest
      | None => extract_all rest
      end
  end.

(** Modelled from the spec: [process_uploaded_files] of [libs/file_utils.py],
    which is not part of the sources.  It computes [unprocessed] as the
    uploaded files whose id is not among the already processed ones, invokes
    the File Context Builder on them, which yields content items in input
    order, and adds the ids of the unprocessed files to the list it was
    handed (line 128's [uploaded_file_ids], which line 147 stores). *)
Definition process_uploaded_files (uploaded_files : list UploadedFile)
  (message_images_list uploaded_file_ids : list string)
  : M (list content_file * list string) :=
  let todo := unprocessed uploaded_files message_images_list in
  emit (FileContextBuilder todo) ;;
  ret (extract_all todo, (uploaded_file_ids ++ map file_id todo)%list).

(** ** The collaborators built on each rerun *)

(** [chat_model.format_prompt(text)] *)
Definition call_format_prompt (c : cycle) (text : string) : M (list content_file) :=
  emit (PromptFormatter text) ;;
  ret (format_prompt c text).

(** Lines 30-33. *)
Definition generate_response (c : cycle) (input : list message) : M string :=
  emit (ModelClient input) ;;
  match conversation c input with
  | Completed response => ret response
  | Failed error => raise (ModelError error)
  end.

(** ** [main] *)

Definition user_message (formatted_prompt : list content_file)
  (images : option (list string)) : message :=
  {| role := "user"; content := Parts formatted_prompt; images := images |}.

Definition assistant_message (response : string) : message :=
  {| role := "assistant"; content := Text response; images := None |}.

(** Lines 124-155: the value is the local [formatted_prompt], [None] while
    it has not been assigned. *)
Definition user_chat (c : cycle) (message_images_list : list string)
  : M (option (list content_file)) :=
  let uploaded_file_ids : list string := [] in
  if has_new_files message_images_list (uploaded_files c) then
    '(content_files, uploaded_file_ids) <-
      process_uploaded_files (uploaded_files c) message_images_list uploaded_file_ids ;;
    match truthy (prompt c) with
    | Some prompt =>
        let '(context_text, context_image) := partition_context content_files in
        let prompt_new := prompt_new context_text prompt in
        formatted <- call_format_prompt c prompt_new ;;
        let formatted_prompt := (formatted ++ context_image)%list in
        append_message (user_message formatted_prompt (Some uploaded_file_ids)) ;;
        ret (Some formatted_prompt)
    | None => ret None
    end
  else
    match truthy (prompt c) with
    | Some prompt =>
        formatted_prompt <- call_format_prompt c prompt ;;
        append_message (user_message formatted_prompt None) ;;
        ret (Some formatted_prompt)
    | None => ret None
    end.

(** Lines 161-167. *)
Definition dispatch (c : cycle) (formatted_prompt : option (list content_file))
  : M unit :=
  msgs <- get_messages ;;
  last_message <- last_item msgs ;;
  if negb (role last_message =? "assistant") then
    formatted_prompt <- read_local "formatted_prompt" formatted_prompt ;;
    response <- generate_response c [user_message formatted_prompt None] ;;
    append_message (assistant_message response)
  else ret tt.

(** Lines 88-167.  Lines 89-103 build the sidebar, [chat_model] and the
    conversation chain, which the [cycle] holds; lines 109, 126, 149,
    154-155 and 162 render; lines 157-159 reformat LangChain's own history
    under another key.  None of them touches [messages]. *)
Definition main (c : cycle) : M unit :=
  seed_messages ;;
  msgs <- get_messages ;;
  formatted_prompt <- user_chat c (message_images_list msgs) ;;
  dispatch c formatted_prompt.

(** The session after a sequence of reruns; what a rerun wrote before it
    raised stays in the session. *)
Definition run (cycles : list cycle) (s : session) : session :=
  fold_left (fun s c => snd (main c s)) cycles s.

Inductive reachable : session -> Prop :=
| reachable_new : reachable new_session
| reachable_rerun c s : reachable s -> reachable (snd (main c s)).

(** The transcript, empty while the key is absent. *)
Definition transcript (s : session) : list message :=
  match messages s with Some l => l | None => [] end.

(** The transcript once lines 105-106 have run. *)
Definition seeded (s : session) : list message :=
  match messages s with Some l => l | None => [INIT_MESSAGE] end.

(** The session after steps 1-4 (lines 105-155) of a rerun. *)
Definition after_user_chat (c : cycle) (s : session) : session :=
  snd ((seed_messages ;;
        msgs <- get_messages ;;
        user_chat c (message_images_list msgs)) s).

(** The calls made by a rerun, and by a sequence of reruns: what [calls]
    gained. *)
Definition calls_of (c : cycle) (s : session) : list event :=
  skipn (length (calls s)) (calls (snd (main c s))).

Definition calls_during (cycles : list cycle) (s : session) : list event :=
  skipn (length (calls s)) (calls (run cycles s)).

(** The Turns a rerun appended. *)
Definition appended (c : cycle) (s : session) : list message :=
  skipn (length (seeded s)) (transcript (snd (main c s))).

(** The files line 125 has not seen in a past Turn, and the context
    lines 132-138 build from them. *)
Definition pending_files (c : cycle) (s : session) : list UploadedFile :=
  unprocessed (uploaded_files c) (message_images_list (seeded s)).

Definition pending_context (c : cycle) (s : session) : string * list content_file :=
  partition_context (extract_all (pending_files c s)).

(** Line 125's test in a rerun. *)
Definition file_branch (c : cycle) (s : session) : bool :=
  has_new_files (message_images_list (seeded s)) (uploaded_files c).

(** The text handed to the Prompt Formatter (lines 145 and 152), if the
    rerun has a chat input. *)
Definition effective_input (c : cycle) (s : session) : option string :=
  match truthy (prompt c) with
  | Some p =>
      Some (if file_branch c s then prompt_new (fst (pending_context c s)) p else p)
  | None => None
  end.

(** The user Turn of lines 146-148 or 153. *)
Definition new_turn (c : cycle) (s : session) : option message :=
  match effective_input c s with
  | Some t =>
      Some (if file_branch c s
            then user_message (format_prompt c t ++ snd (pending_context c s))%list
                              (Some (map file_id (pending_files c s)))
            else user_message (format_prompt c t) None)
  | None => None
  end.

(** The calls of lines 124-155. *)
Definition chat_calls (c : cycle) (s : session) : list event :=
  ((if file_branch c s then [FileContextBuilder (pending_files c s)] else []) ++
   match effective_input c s with
   | Some t => [PromptFormatter t]
   | None => []
   end)%list.

(** Line 164's payload for a Turn. *)
Definition payload_of (u : message) : list message :=
  [{| role := "user"; content := content u; images := None |}].

End TurnController.

(** ** Vocabulary of the properties *)

Definition join (l : list string) : string := fold_right append "" l.

Definition texts_of (items : list content_file) : list string :=
  flat_map (fun i => match i with text_part t => [t] | _ => [] end) items.

Definition is_image (i : content_file) : bool :=
  match i with text_part _ => false | _ => true end.

Definition builder_inputs (evs : list event) : list (list UploadedFile) :=
  flat_map (fun e => match e with FileContextBuilder fs => [fs] | _ => [] end) evs.

Definition formatter_inputs (evs : list event) : list string :=
  flat_map (fun e => match e with PromptFormatter t => [t] | _ => [] end) evs.

Definition model_payloads (evs : list event) : list (list message) :=
  flat_map (fun e => match e with ModelClient p => [p] | _ => [] end) evs.

Definition last_role (l : list message) : option string :=
  match rev l with m :: _ => Some (role m) | [] => None end.

(** The identifiers attached to a Turn. *)
Definition attached (m : message) : list string :=
  match images m with Some ids => ids | None => [] end.

(** The rerun has a chat input. *)
Definition has_prompt (c : cycle) : bool :=
  match truthy (prompt c) with Some _ => true | None => false end.

(** ** Sample collaborators and inputs *)

Definition extract_by_mime (f : UploadedFile) : option content_file :=
  if mime f =? "text/plain" then Some (text_part (data f))
  else if mime f =? "image/png" then Some (image_part (data f))
  else None.

Definition text_block (t : string) : list content_file := [text_part t].

Definition battery_txt : UploadedFile :=
  {| file_id := "f-1"; name := "battery.txt"; mime := "text/plain";
     data := "Great battery life." |}.

Definition photo_png : UploadedFile :=
  {| file_id := "f-2"; name := "photo.png"; mime := "image/png";
     data := "iVBORw0KGgo=" |}.

Definition ask (p : option string) (files : list UploadedFile)
  (model : model_outcome) : cycle :=
  {| prompt := p; uploaded_files := files; format_prompt := text_block;
     conversation := fun _ => model |}.

(** The session left by a first rerun whose Model Client call failed. *)
Definition unanswered_session : session :=
  snd (main extract_by_mime (ask (Some "hi") [] (Failed "ProviderError")) new_session).

(** The session after one answered question about [battery_txt]. *)
Definition answered_session : session :=
  run extract_by_mime [ask (Some "q1") [battery_txt] (Completed "a1")] new_session.

(** ** The sidebar and the top of [main] (lines 14, 54-104) *)

(** Line 14. *)
Definition region_name : string := "us-east-1".

(** The scalar values the script keeps in [st.session_state] and reads from
    a model's configuration entry. *)
Inductive value : Type :=
| VNone
| VBool (b : bool)
| VInt (z : Z)
| VStr (s : string).

(** A Python dict with string keys, in insertion order. *)
Definition dict : Type := list (string * value).

(** [k in d] and [d[k]]: [None] is the missing key. *)
Fixpoint dict_get (k : string) (d : dict) : option value :=
  match d with
  | [] => None
  | (k', v) :: rest => if k' =? k then Some v else dict_get k rest
  end.

(** [d[k] = v]: the entry is replaced where it stands, or added last. *)
Fixpoint dict_set (k : string) (v : value) (d : dict) : dict :=
  match d with
  | [] => [(k, v)]
  | (k', v') :: rest =>
      if k' =? k then (k', v) :: rest else (k', v') :: dict_set k v rest
  end.

(** [str(v)], which an f-string applies to the value it formats. *)
Definition py_str (v : value) : string :=
  match v with
  | VNone => "None"
  | VBool true => "True"
  | VBool false => "False"
  | VInt z => NilZero.string_of_int (Z.to_int z)
  | VStr s => s
  end.

(** A widget's value that may be Python's [None]. *)
Definition option_value (o : option string) : value :=
  match o with Some s => VStr s | None => VNone end.

(** [model_config["models"]]: the entries by model name, in file order. *)
Definition models_config : Type := list (string * dict).

(** [model_config["models"][name]]; [None] is never a key. *)
Fixpoint models_lookup (name : option string) (models : models_config)
  : option dict :=
  match models with
  | [] => None
  | (k, info) :: rest =>
      match name with
      | Some n => if k =? n then Some info else models_lookup name rest
      | None => None
      end
  end.

(** A decimal literal [mantissa * 10 ^ exponent], for [0.0] and [1.0]. *)
Record decimal_literal : Type := {
  mantissa : Z;
  exponent : Z
}.

(** Lines 66-72. *)
Record model_kwargs : Type := {
  temperature : decimal_literal;
  top_p : decimal_literal;
  top_k : Z;
  max_tokens : Z;
  system : string
}.

(** What the widgets hand back in one rerun: [random.randint] of line 90,
    [st.selectbox] of line 57, [st.radio] of line 36, [st.file_uploader] of
    line 78 and [st.chat_input] of line 112. *)
Record widgets : Type := {
  randint : Z;
  selectbox : option string;
  radio : string;
  file_uploader : list UploadedFile;
  chat_input : option string
}.

(** The widgets a rerun renders in the sidebar, with the arguments the
    script computes for them. *)
Inductive widget_call : Type :=
| Selectbox (options : list string) (key : string)
| Radio (options : list string)
| FileUploader (types : list string) (key disabled : value).

Inductive key_error : Type :=
| KeyError (key : value).

(** Lines 54-86.  The value is what the function returns or the [KeyError]
    it raises, then [st.session_state] as it leaves it, then the widgets it
    rendered.  The entries Streamlit keeps for keyed widgets under the
    widgets' own keys are not part of the dict; none of those keys is one
    the script reads or writes. *)
Definition render_sidebar (models : models_config) (w : widgets) (session_state : dict)
  : (key_error + dict * model_kwargs * list UploadedFile) * dict * list widget_call :=
  match dict_get "widget_key" session_state with
  | None => (inl (KeyError (VStr "widget_key")), session_state, [])
  | Some widget_key =>
      let select := Selectbox (map fst models) (py_str widget_key ++ "_Model_Id") in
      let model_name_select := selectbox w in
      let session_state :=
        dict_set "model_name" (option_value model_name_select) session_state in
      match models_lookup model_name_select models with
      | None =>
          (inl (KeyError (option_value model_name_select)), session_state, [select])
      | Some model_info =>
          let model_info := dict_set "region_name" (VStr region_name) model_info in
          let model_kwargs :=
            {| temperature := {| mantissa := 0; exponent := -1 |};
               top_p := {| mantissa := 10; exponent := -1 |};
               top_k := 200;
               max_tokens := 100000;
               system := define_system_prompt (radio w) |} in
          let session_state :=
            match dict_get "file_uploader_key" session_state with
            | None => dict_set "file_uploader_key" (VInt 0) session_state
            | Some _ => session_state
            end in
          let image_upload_disabled :=
            match dict_get "image_upload_disabled" model_info with
            | Some v => v
            | None => VBool false
            end in
          match dict_get "file_uploader_key" session_state with
          | None =>
              (inl (KeyError (VStr "file_uploader_key")), session_state,
               [select; Radio radio_options])
          | Some key =>
              (inr (model_info, model_kwargs, file_uploader w), session_state,
               [select; Radio radio_options;
                FileUploader ["jpg"; "jpeg"; "png"; "txt"; "pdf"; "csv"; "py"]
                             key image_upload_disabled])
          end
      end
  end.

(** Everything a session keeps between reruns. *)
Record app_state : Type := {
  session_state : dict;
  chat : session
}.

(** What the script's libraries give it: [load_model_config()] of line 56
    and, for [ChatModel] of line 94 with the chain of lines 95-103, the
    formatter and the model behaviour it stands for. *)
Record libraries : Type := {
  load_model_config : models_config;
  chat_model :
    value -> dict -> model_kwargs ->
    (string -> list content_file) * (list message -> model_outcome)
}.

Inductive page_outcome : Type :=
| PageReturned
| PageKeyError (e : key_error)
| PageRaised (e : exception).

(** Lines 89-90. *)
Definition ensure_widget_key (w : widgets) (session_state : dict) : dict :=
  match dict_get "widget_key" session_state with
  | None => dict_set "widget_key" (VStr (py_str (VInt (randint w)))) session_state
  | Some _ => session_state
  end.

(** One rerun of the whole script, lines 88-167: the top of [main] and the
    sidebar, then the chat part above. *)
Definition page (extract : UploadedFile -> option content_file)
  (libs : libraries) (w : widgets) (a : app_state)
  : page_outcome * app_state * list widget_call :=
  let st0 := ensure_widget_key w (session_state a) in
  match render_sidebar (load_model_config libs) w st0 with
  | (inl e, st1, rendered) =>
      (PageKeyError e, {| session_state := st1; chat := chat a |}, rendered)
  | (inr (model_info, model_kwargs, uploaded_files), st1, rendered) =>
      match dict_get "model_name" st1 with
      | None =>
          (PageKeyError (KeyError (VStr "model_name")),
           {| session_state := st1; chat := chat a |}, rendered)
      | Some model_name =>
          let '(formatter, llm) := chat_model libs model_name model_info model_kwargs in
          let c := {| prompt := chat_input w; uploaded_files := uploaded_files;
                      format_prompt := formatter; conversation := llm |} in
          match main extract c (chat a) with
          | (Returned _, chat') =>
              (PageReturned, {| session_state := st1; chat := chat' |}, rendered)
          | (Raised e, chat') =>
              (PageRaised e, {| session_state := st1; chat := chat' |}, rendered)
          end
      end
  end.

(** The state after a sequence of reruns of the script. *)
Definition pages (extract : UploadedFile -> option content_file)
  (libs : libraries) (ws : list widgets) (a : app_state) : app_state :=
  fold_left (fun a w => snd (fst (page extract libs w a))) ws a.

Definition new_app : app_state := {| session_state := []; chat := new_session |}.

(** The three parts of what [render_sidebar] and [page] give. *)
Definition outcome_of {A B C : Type} (x : A * B * C) : A := fst (fst x).
Definition state_of {A B C : Type} (x : A * B * C) : B := snd (fst x).
Definition rendered_of {A B C : Type} (x : A * B * C) : C := snd x.

(** ** More vocabulary *)

(** How many Turns of a role a transcript holds. *)
Definition count_role (r : string) (l : list message) : nat :=
  length (filter (fun m => role m =? r) l).

(** No answer directly follows another answer. *)
Fixpoint no_adjacent_assistants (l : list message) : bool :=
  match l with
  | a :: ((b :: _) as rest) =>
      negb ((role a =? "assistant") && (role b =? "assistant"))
      && no_adjacent_assistants rest
  | _ => true
  end.

(** The wrapper of line 141 around a context text. *)
Definition wrapped (context_text p : string) : string :=
  "Here is some context for you: " ++ LF ++ "<context>" ++ LF ++
  context_text ++ "</context>" ++ LF ++ LF ++ p.

(** ** More sample inputs *)

Definition empty_txt : UploadedFile :=
  {| file_id := "f-3"; name := "empty.txt"; mime := "text/plain"; data := "" |}.

Definition sample_models : models_config :=
  [("Claude 3 Sonnet",
    [("model_id", VStr "anthropic.claude-3-sonnet-20240229-v1:0");
     ("region_name", VStr "eu-west-1")]);
   ("Claude 2",
    [("model_id", VStr "anthropic.claude-v2:1");
     ("image_upload_disabled", VBool true)])].

Definition sample_libraries : libraries :=
  {| load_model_config := sample_models;
     chat_model := fun _ _ _ => (text_block, fun _ => Completed "reply") |}.

Definition sample_widgets (model : option string) (question : option string)
  : widgets :=
  {| randint := 4711; selectbox := model; radio := "Summarize";
     file_uploader := []; chat_input := question |}.

(** * Properties *)

Lemma append_assoc (a b c : string) : (a ++ b) ++ c = a ++ (b ++ c).
Proof.
  induction a as [|ch a IH]; simpl; [reflexivity | now rewrite IH].
Qed.

Lemma append_empty_r (a : string) : a ++ "" = a.
Proof.
  induction a as [|ch a IH]; simpl; [reflexivity | now rewrite IH].
Qed.

(** ** One rerun, case by case *)

Section Reruns.

Variable extract : UploadedFile -> option content_file.

Lemma seeded_run (A : Type) (k : list message -> M A) (s : session) :
  (seed_messages ;; msgs <- get_messages ;; k msgs) s
  = k (seeded s) {| messages := Some (seeded s); calls := calls s |}.
Proof.
  unfold bind, seed_messages, get_messages, seeded.
  destruct s as [[l|] evs]; reflexivity.
Qed.

Lemma user_chat_files (c : cycle) (mil : list string) (s : session)
      (l : list message) (p : string) :
  messages s = Some l ->
  has_new_files mil (uploaded_files c) = true ->
  truthy (prompt c) = Some p ->
  let todo := unprocessed (uploaded_files c) mil in
  let ctx := partition_context (extract_all extract todo) in
  let fp := (format_prompt c (prompt_new (fst ctx) p) ++ snd ctx)%list in
  user_chat extract c mil s
  = (Returned (Some fp),
     {| messages := Some (l ++ [user_message fp (Some (map file_id todo))])%list;
        calls := (calls s ++ [FileContextBuilder todo;
                              PromptFormatter (prompt_new (fst ctx) p)])%list |}).
Proof.
  intros Hl Hg Hp todo ctx fp.
  unfold user_chat. rewrite Hg, Hp.
  unfold process_uploaded_files, call_format_prompt, append_message, emit, bind, ret.
  simpl. fold todo. fold ctx. destruct ctx as [context_text context_image] eqn:E.
  simpl. rewrite Hl. subst fp. simpl. rewrite <- app_assoc. reflexivity.
Qed.

Lemma user_chat_plain (c : cycle) (mil : list string) (s : session)
      (l : list message) (p : string) :
  messages s = Some l ->
  has_new_files mil (uploaded_files c) = false ->
  truthy (prompt c) = Some p ->
  user_chat extract c mil s
  = (Returned (Some (format_prompt c p)),
     {| messages := Some (l ++ [user_message (format_prompt c p) None])%list;
        calls := (calls s ++ [PromptFormatter p])%list |}).
Proof.
  intros Hl Hg Hp.
  unfold user_chat. rewrite Hg, Hp.
  unfold call_format_prompt, append_message, emit, bind, ret.
  simpl. rewrite Hl. reflexivity.
Qed.

Lemma user_chat_idle (c : cycle) (mil : list string) (s : session) :
  truthy (prompt c) = None ->
  user_chat extract c mil s
  = (Returned None,
     {| messages := messages s;
        calls := (calls s ++
                  if has_new_files mil (uploaded_files c)
                  then [FileContextBuilder (unprocessed (uploaded_files c) mil)]
                  else [])%list |}).
Proof.
  intros Hp. unfold user_chat. rewrite Hp.
  destruct (has_new_files mil (uploaded_files c)).
  - reflexivity.
  - unfold ret. rewrite app_nil_r. destruct s; reflexivity.
Qed.

Lemma last_item_snoc (l : list message) (m : message) :
  last_item (l ++ [m]) = ret m.
Proof.
  unfold last_item. rewrite rev_unit. reflexivity.
Qed.

Lemma last_role_snoc (l : list message) (m : message) :
  last_role (l ++ [m]) = Some (role m).
Proof.
  unfold last_role. rewrite rev_unit. reflexivity.
Qed.

(** Lines 161-167 after a user Turn was appended in the same rerun. *)
Lemma dispatch_fresh_turn (c : cycle) (s : session) (l : list message)
      (fp : list content_file) (ids : option (list string)) :
  messages s = Some (l ++ [user_message fp ids])%list ->
  dispatch c (Some fp) s
  = match conversation c [user_message fp None] with
    | Completed response =>
        (Returned tt,
         {| messages := Some ((l ++ [user_message fp ids]) ++
                              [assistant_message response])%list;
            calls := (calls s ++ [ModelClient [user_message fp None]])%list |})
    | Failed error =>
        (Raised (ModelError error),
         {| messages := messages s;
            calls := (calls s ++ [ModelClient [user_message fp None]])%list |})
    end.
Proof.
  intros Hl.
  unfold dispatch, bind, get_messages. rewrite Hl.
  rewrite last_item_snoc. unfold ret at 1. simpl.
  unfold generate_response, emit, bind. simpl.
  destruct (conversation c [user_message fp None]); simpl.
  - unfold append_message. simpl. rewrite Hl. reflexivity.
  - unfold raise. rewrite Hl. reflexivity.
Qed.

(** Lines 161-167 when no user Turn was appended in the rerun. *)
Lemma dispatch_idle (c : cycle) (s : session) (l : list message) :
  messages s = Some l ->
  dispatch c None s
  = (match last_role l with
     | None => Raised IndexError
     | Some r =>
         if r =? "assistant" then Returned tt
         else Raised (UnboundLocalError "formatted_prompt")
     end, s).
Proof.
  intros Hl.
  unfold dispatch, bind, get_messages, last_item, last_role. rewrite Hl.
  destruct (rev l) as [|m rest]; [reflexivity|].
  unfold ret at 1. destruct (role m =? "assistant"); reflexivity.
Qed.

Lemma after_user_chat_eq (c : cycle) (s : session) :
  after_user_chat extract c s
  = {| messages := Some (seeded s ++
                         match new_turn extract c s with
                         | Some u => [u]
                         | None => []
                         end)%list;
       calls := (calls s ++ chat_calls extract c s)%list |}.
Proof.
  unfold after_user_chat. rewrite seeded_run.
  unfold new_turn, chat_calls, effective_input, file_branch.
  destruct (truthy (prompt c)) as [p|] eqn:Hp.
  - destruct (has_new_files (message_images_list (seeded s)) (uploaded_files c)) eqn:Hg.
    + erewrite user_chat_files by (try reflexivity; eassumption). reflexivity.
    + erewrite user_chat_plain by (try reflexivity; eassumption). reflexivity.
  - rewrite user_chat_idle by assumption. simpl.
    rewrite !app_nil_r. reflexivity.
Qed.

(** The whole rerun, spelled out. *)
Lemma main_eq (c : cycle) (s : session) :
  main extract c s
  = match new_turn extract c s with
    | Some u =>
        match conversation c (payload_of u) with
        | Completed response =>
            (Returned tt,
             {| messages := Some (seeded s ++ [u; assistant_message response])%list;
                calls := (calls s ++ chat_calls extract c s ++
                          [ModelClient (payload_of u)])%list |})
        | Failed error =>
            (Raised (ModelError error),
             {| messages := Some (seeded s ++ [u])%list;
                calls := (calls s ++ chat_calls extract c s ++
                          [ModelClient (payload_of u)])%list |})
        end
    | None =>
        (match last_role (seeded s) with
         | None => Raised IndexError
         | Some r =>
             if r =? "assistant" then Returned tt
             else Raised (UnboundLocalError "formatted_prompt")
         end,
         {| messages := Some (seeded s);
            calls := (calls s ++ chat_calls extract c s)%list |})
    end.
Proof.
  unfold main. rewrite seeded_run.
  unfold new_turn, chat_calls, effective_input, file_branch.
  destruct (truthy (prompt c)) as [p|] eqn:Hp.
  - destruct (has_new_files (message_images_list (seeded s)) (uploaded_files c)) eqn:Hg.
    + unfold bind at 1.
      erewrite user_chat_files by (try reflexivity; eassumption).
      erewrite dispatch_fresh_turn by reflexivity.
      unfold payload_of, pending_context, pending_files. simpl.
      destruct (conversation c _); simpl; rewrite <- !app_assoc; reflexivity.
    + unfold bind at 1.
      erewrite user_chat_plain by (try reflexivity; eassumption).
      erewrite dispatch_fresh_turn by reflexivity.
      unfold payload_of. simpl.
      destruct (conversation c _); simpl; rewrite <- !app_assoc; reflexivity.
  - unfold bind at 1. rewrite user_chat_idle by assumption.
    erewrite dispatch_idle by reflexivity. simpl.
    rewrite !app_nil_r. reflexivity.
Qed.

End Reruns.

(** The spec's ordering example: a question, then a question about a
    freshly uploaded text file. *)
Example ordering_example :
  transcript
    (run extract_by_mime
       [ask (Some "hi") [] (Completed "reply1");
        ask (Some "recommend?")
            [{| file_id := "a"; name := "fileA.txt"; mime := "text/plain";
                data := "specs" |}]
            (Completed "reply2")]
       new_session)
  = [INIT_MESSAGE;
     user_message [text_part "hi"] None;
     assistant_message "reply1";
     user_message
       [text_part ("Here is some context for you: " ++ LF ++ "<context>" ++ LF ++
                   "specs" ++ LF ++ LF ++ "</context>" ++ LF ++ LF ++ "recommend?")]
       (Some ["a"]);
     assistant_message "reply2"].
Proof. reflexivity. Qed.

(** ** What a rerun adds to the session *)

Section Effects.

Variable extract : UploadedFile -> option content_file.

Lemma skipn_length_app (A : Type) (l1 l2 : list A) :
  skipn (length l1) (l1 ++ l2) = l2.
Proof.
  induction l1 as [|x l1 IH]; simpl; [reflexivity | exact IH].
Qed.

(** The Model Client call of a rerun, if there is one. *)
Lemma calls_of_eq (c : cycle) (s : session) :
  calls_of extract c s
  = (chat_calls extract c s ++
     match new_turn extract c s with
     | Some u => [ModelClient (payload_of u)]
     | None => []
     end)%list.
Proof.
  unfold calls_of. rewrite main_eq.
  destruct (new_turn extract c s) as [u|].
  - destruct (conversation c (payload_of u)); simpl; apply skipn_length_app.
  - simpl. rewrite app_nil_r. apply skipn_length_app.
Qed.

(** The Turns of a rerun: the user Turn, then the answer if the model
    returned one. *)
Lemma transcript_main (c : cycle) (s : session) :
  transcript (snd (main extract c s))
  = (seeded s ++
     match new_turn extract c s with
     | Some u =>
         match conversation c (payload_of u) with
         | Completed response => [u; assistant_message response]
         | Failed _ => [u]
         end
     | None => []
     end)%list.
Proof.
  rewrite main_eq. unfold transcript.
  destruct (new_turn extract c s) as [u|].
  - destruct (conversation c (payload_of u)); reflexivity.
  - simpl. now rewrite app_nil_r.
Qed.

Lemma appended_eq (c : cycle) (s : session) :
  appended extract c s
  = match new_turn extract c s with
    | Some u =>
        match conversation c (payload_of u) with
        | Completed response => [u; assistant_message response]
        | Failed _ => [u]
        end
    | None => []
    end.
Proof.
  unfold appended. rewrite transcript_main. apply skipn_length_app.
Qed.

Lemma builder_inputs_app (a b : list event) :
  builder_inputs (a ++ b) = (builder_inputs a ++ builder_inputs b)%list.
Proof. apply flat_map_app. Qed.

Lemma formatter_inputs_app (a b : list event) :
  formatter_inputs (a ++ b) = (formatter_inputs a ++ formatter_inputs b)%list.
Proof. apply flat_map_app. Qed.

Lemma model_payloads_app (a b : list event) :
  model_payloads (a ++ b) = (model_payloads a ++ model_payloads b)%list.
Proof. apply flat_map_app. Qed.

Lemma builder_inputs_of (c : cycle) (s : session) :
  builder_inputs (calls_of extract c s)
  = if file_branch c s then [pending_files c s] else [].
Proof.
  rewrite calls_of_eq. unfold chat_calls.
  rewrite !builder_inputs_app.
  destruct (file_branch c s), (effective_input extract c s),
    (new_turn extract c s); reflexivity.
Qed.

Lemma formatter_inputs_of (c : cycle) (s : session) :
  formatter_inputs (calls_of extract c s)
  = match effective_input extract c s with Some t => [t] | None => [] end.
Proof.
  rewrite calls_of_eq. unfold chat_calls.
  rewrite !formatter_inputs_app.
  destruct (file_branch c s), (effective_input extract c s),
    (new_turn extract c s); reflexivity.
Qed.

Lemma model_payloads_of (c : cycle) (s : session) :
  model_payloads (calls_of extract c s)
  = match new_turn extract c s with Some u => [payload_of u] | None => [] end.
Proof.
  rewrite calls_of_eq. unfold chat_calls.
  rewrite !model_payloads_app.
  destruct (file_branch c s), (effective_input extract c s),
    (new_turn extract c s); reflexivity.
Qed.

Lemma truthy_some (o : option string) (p : string) :
  o = Some p -> p <> "" -> truthy o = Some p.
Proof.
  intros -> Hp. unfold truthy.
  destruct (String.eqb_spec p ""); [contradiction | reflexivity].
Qed.

Lemma has_new_files_iff (mil : list string) (files : list UploadedFile) :
  has_new_files mil files = true <-> files <> [] /\ length mil < length files.
Proof.
  unfold has_new_files. rewrite andb_true_iff, Nat.ltb_lt.
  destruct files; simpl; split; intros [H1 H2]; split;
    congruence || assumption || reflexivity.
Qed.

End Effects.

(** ** The partition of the content items (lines 132-138) *)

Lemma partition_fold (items : list content_file) :
  forall (t : string) (im : list content_file),
    fold_left partition_step items (t, im)
    = (t ++ join (map (fun x => x ++ LF ++ LF) (texts_of items)),
       (im ++ filter is_image items)%list).
Proof.
  induction items as [|i items IH]; intros t im.
  - simpl. now rewrite append_empty_r, app_nil_r.
  - destruct i as [text|source]; simpl; rewrite IH.
    + now rewrite append_assoc.
    + now rewrite <- app_assoc.
Qed.

(** C8: for every sequence of content items, [context_text] is the
    concatenation of the text items in order, each followed by a blank
    line, and [context_image] is the subsequence of the image items in
    their order. *)
Theorem partition_context_spec (items : list content_file) :
  partition_context items
  = (join (map (fun x => x ++ LF ++ LF) (texts_of items)),
     filter is_image items).
Proof.
  unfold partition_context. now rewrite partition_fold.
Qed.

(** ** The system prompt (lines 35-52) *)

(** C10: [define_system_prompt] maps "Summarize", "Analyze" and
    "Recommend" each to its own instruction string, the three strings are
    different and non-empty, and for every option the radio selector offers
    the result is the string of that option, so the empty fallback is not
    taken and different options never share a string. *)
Theorem define_system_prompt_offered (radio_option : string) :
  In radio_option radio_options ->
  (define_system_prompt "Summarize" = summarize_prompt
   /\ define_system_prompt "Analyze" = analyze_prompt
   /\ define_system_prompt "Recommend" = recommend_prompt)
  /\ (prefix "Provide a summary of the reviews" summarize_prompt = true
      /\ prefix "Analyze the pros and cons" analyze_prompt = true
      /\ prefix "Extract the typical 'Time'" recommend_prompt = true)
  /\ ((radio_option = "Summarize"
       /\ define_system_prompt radio_option = summarize_prompt)
      \/ (radio_option = "Analyze"
          /\ define_system_prompt radio_option = analyze_prompt)
      \/ (radio_option = "Recommend"
          /\ define_system_prompt radio_option = recommend_prompt))
  /\ define_system_prompt radio_option <> ""
  /\ NoDup [summarize_prompt; analyze_prompt; recommend_prompt]
  /\ (forall other,
        In other radio_options ->
        define_system_prompt other = define_system_prompt radio_option ->
        other = radio_option).
Proof.
  intros Hin.
  assert (Hmap : define_system_prompt "Summarize" = summarize_prompt
                 /\ define_system_prompt "Analyze" = analyze_prompt
                 /\ define_system_prompt "Recommend" = recommend_prompt)
    by (repeat split; reflexivity).
  assert (Hsa : summarize_prompt <> analyze_prompt) by discriminate.
  assert (Hsr : summarize_prompt <> recommend_prompt) by discriminate.
  assert (Har : analyze_prompt <> recommend_prompt) by discriminate.
  destruct Hmap as [Hs [Ha Hr]].
  split; [repeat split; assumption|].
  split; [repeat split; reflexivity|].
  split.
  { destruct Hin as [<-|[<-|[<-|[]]]]; auto. }
  split.
  { destruct Hin as [<-|[<-|[<-|[]]]]; discriminate. }
  split.
  { constructor; [intros [H|[H|[]]]; congruence|].
    constructor; [intros [H|[]]; congruence|].
    constructor; [intros [] | constructor]. }
  intros other Hother Heq.
  destruct Hin as [<-|[<-|[<-|[]]]]; destruct Hother as [<-|[<-|[<-|[]]]];
    try reflexivity; rewrite ?Hs, ?Ha, ?Hr in Heq; congruence.
Qed.

Lemma define_system_prompt_offered_witness :
  (define_system_prompt "Summarize" = summarize_prompt
   /\ define_system_prompt "Analyze" = analyze_prompt
   /\ define_system_prompt "Recommend" = recommend_prompt)
  /\ (prefix "Provide a summary of the reviews" summarize_prompt = true
      /\ prefix "Analyze the pros and cons" analyze_prompt = true
      /\ prefix "Extract the typical 'Time'" recommend_prompt = true)
  /\ (("Analyze" = "Summarize"
       /\ define_system_prompt "Analyze" = summarize_prompt)
      \/ ("Analyze" = "Analyze"
          /\ define_system_prompt "Analyze" = analyze_prompt)
      \/ ("Analyze" = "Recommend"
          /\ define_system_prompt "Analyze" = recommend_prompt))
  /\ define_system_prompt "Analyze" <> ""
  /\ NoDup [summarize_prompt; analyze_prompt; recommend_prompt]
  /\ (forall other,
        In other radio_options ->
        define_system_prompt other = define_system_prompt "Analyze" ->
        other = "Analyze").
Proof.
  apply (define_system_prompt_offered "Analyze").
  simpl. right. left. reflexivity.
Defined.

(** ** The effective input (lines 140-145 and 152) *)

Section EffectiveInput.

Variable extract : UploadedFile -> option content_file.

(** C2, as the code has it: when a non-empty chat input meets a non-empty
    extracted context text, the text handed to the Prompt Formatter is
    ["Here is some context for you: \n<context>\n"], with a space between
    the colon and the line feed, then the context text, then
    ["</context>\n\n"], then the chat input; it is the only text formatted
    in the rerun. *)
Theorem context_wrapping (c : cycle) (s : session) (p : string) :
  prompt c = Some p ->
  p <> "" ->
  file_branch c s = true ->
  fst (pending_context extract c s) <> "" ->
  formatter_inputs (calls_of extract c s)
  = ["Here is some context for you: " ++ LF ++ "<context>" ++ LF ++
     fst (pending_context extract c s) ++ "</context>" ++ LF ++ LF ++ p].
Proof.
  intros Hp Hne Hb Hctx.
  rewrite formatter_inputs_of. unfold effective_input.
  rewrite (truthy_some _ _ Hp Hne), Hb. unfold prompt_new.
  destruct (String.eqb_spec (fst (pending_context extract c s)) "");
    [contradiction | reflexivity].
Qed.

(** C7, as the code has it: a non-empty chat input reaches the Prompt
    Formatter unchanged both when line 125's test fails (no file is
    selected, or no more files are selected than past Turns hold) and when
    the file branch extracts no text.  In the first case the user Turn has
    no ["images"] entry; in the second it carries the identifiers of the
    files not yet processed. *)
Theorem no_context_passthrough (c : cycle) (s : session) (p : string) :
  prompt c = Some p ->
  p <> "" ->
  (uploaded_files c = [] \/
   length (uploaded_files c) <= length (message_images_list (seeded s)) ->
   formatter_inputs (calls_of extract c s) = [p]
   /\ exists u, hd_error (appended extract c s) = Some u
                /\ role u = "user" /\ images u = None /\ attached u = [])
  /\ (file_branch c s = true ->
      fst (pending_context extract c s) = "" ->
      formatter_inputs (calls_of extract c s) = [p]
      /\ exists u, hd_error (appended extract c s) = Some u
                   /\ role u = "user"
                   /\ attached u = map file_id (pending_files c s)).
Proof.
  intros Hp Hne. pose proof (truthy_some _ _ Hp Hne) as Ht.
  split.
  - intros Hno.
    assert (Hb : file_branch c s = false).
    { unfold file_branch. apply not_true_is_false. intros H.
      apply has_new_files_iff in H. destruct H as [H1 H2].
      destruct Hno as [Hno|Hno]; [contradiction | lia]. }
    rewrite formatter_inputs_of, appended_eq.
    unfold new_turn, effective_input. rewrite Ht, Hb.
    split; [reflexivity|].
    exists (user_message (format_prompt c p) None).
    destruct (conversation c _); simpl; auto.
  - intros Hb Hctx.
    rewrite formatter_inputs_of, appended_eq.
    unfold new_turn, effective_input. rewrite Ht, Hb.
    unfold prompt_new. rewrite Hctx. simpl.
    split; [reflexivity|].
    eexists. destruct (conversation c _); simpl; split; try reflexivity; auto.
Qed.

(** ** When the File Context Builder is invoked (lines 124-129) *)

(** C5, as the code has it: a rerun invokes the File Context Builder
    exactly when line 125's test holds, that is when some file is selected
    and past Turns hold fewer identifiers than files are selected; it then
    invokes it once, on the files not yet processed.  Unprocessed files
    alone do not trigger it. *)
Theorem builder_trigger (c : cycle) (s : session) :
  builder_inputs (calls_of extract c s)
  = (if has_new_files (message_images_list (seeded s)) (uploaded_files c)
     then [unprocessed (uploaded_files c) (message_images_list (seeded s))]
     else [])
  /\ (has_new_files (message_images_list (seeded s)) (uploaded_files c) = true
      <-> uploaded_files c <> []
          /\ length (message_images_list (seeded s)) < length (uploaded_files c)).
Proof.
  split; [apply builder_inputs_of | apply has_new_files_iff].
Qed.

End EffectiveInput.

(** The spec's example with the wrapper as the code writes it. *)
Lemma context_wrapping_witness :
  formatter_inputs
    (calls_of extract_by_mime
       (ask (Some "What do people say?") [battery_txt] (Completed "ok"))
       new_session)
  = ["Here is some context for you: " ++ LF ++ "<context>" ++ LF ++
     ("Great battery life." ++ LF ++ LF) ++ "</context>" ++ LF ++ LF ++
     "What do people say?"].
Proof.
  apply (context_wrapping extract_by_mime
           (ask (Some "What do people say?") [battery_txt] (Completed "ok"))
           new_session "What do people say?").
  - reflexivity.
  - discriminate.
  - reflexivity.
  - vm_compute. discriminate.
Defined.

(** C2 as the spec words it, without the space after the colon, fails on
    the spec's own example. *)
Lemma context_wrapping_without_space_fails :
  fst (pending_context extract_by_mime
         (ask (Some "What do people say?") [battery_txt] (Completed "ok"))
         new_session)
  = "Great battery life." ++ LF ++ LF
  /\ formatter_inputs
       (calls_of extract_by_mime
          (ask (Some "What do people say?") [battery_txt] (Completed "ok"))
          new_session)
     <> ["Here is some context for you:" ++ LF ++ "<context>" ++ LF ++
         ("Great battery life." ++ LF ++ LF) ++ "</context>" ++ LF ++ LF ++
         "What do people say?"].
Proof.
  split; [reflexivity|]. vm_compute. discriminate.
Qed.

Lemma no_context_passthrough_witness :
  (formatter_inputs (calls_of extract_by_mime (ask (Some "hi") [] (Completed "ok")) new_session)
   = ["hi"]
   /\ exists u, hd_error (appended extract_by_mime (ask (Some "hi") [] (Completed "ok")) new_session)
                = Some u
                /\ role u = "user" /\ images u = None /\ attached u = [])
  /\ (formatter_inputs
        (calls_of extract_by_mime (ask (Some "hi") [photo_png] (Completed "ok")) new_session)
      = ["hi"]
      /\ exists u, hd_error (appended extract_by_mime
                               (ask (Some "hi") [photo_png] (Completed "ok")) new_session)
                   = Some u
                   /\ role u = "user"
                   /\ attached u = ["f-2"]).
Proof.
  split.
  - apply (no_context_passthrough extract_by_mime
             (ask (Some "hi") [] (Completed "ok")) new_session "hi").
    + reflexivity.
    + discriminate.
    + left. reflexivity.
  - apply (no_context_passthrough extract_by_mime
             (ask (Some "hi") [photo_png] (Completed "ok")) new_session "hi").
    + reflexivity.
    + discriminate.
    + reflexivity.
    + reflexivity.
Defined.

(** C7 as the spec words it fails when the only upload is an image: no
    text context is extracted and the chat input passes unchanged, but the
    user Turn carries the image's identifier. *)
Lemma image_only_turn_has_attachment :
  fst (pending_context extract_by_mime
         (ask (Some "hi") [photo_png] (Completed "ok")) new_session) = ""
  /\ exists u, hd_error (appended extract_by_mime
                           (ask (Some "hi") [photo_png] (Completed "ok")) new_session)
               = Some u
               /\ attached u <> [].
Proof.
  split; [reflexivity|]. eexists. split; [reflexivity|]. discriminate.
Qed.

(** C5 as the spec words it fails once the user swaps an answered file for
    another: the new file is unprocessed, yet the next rerun does not
    invoke the File Context Builder. *)
Lemma swapped_file_is_not_processed :
  unprocessed [photo_png] (message_images_list (seeded answered_session))
  = [photo_png]
  /\ builder_inputs
       (calls_of extract_by_mime
          (ask (Some "q2") [photo_png] (Completed "a2")) answered_session)
     = [].
Proof.
  split; reflexivity.
Qed.

(** ** Processed files (lines 114-129) *)

Section ProcessedFiles.

Variable extract : UploadedFile -> option content_file.

Lemma message_images_list_seeded (s : session) :
  message_images_list (seeded s) = message_images_list (transcript s).
Proof.
  unfold seeded, transcript. destruct (messages s); reflexivity.
Qed.

Lemma message_images_user (fp : list content_file) (ids : list string) :
  message_images (user_message fp (Some ids)) = ids.
Proof.
  destruct ids; reflexivity.
Qed.

(** What a rerun adds to the processed identifiers. *)
Lemma message_images_list_main (c : cycle) (s : session) :
  message_images_list (transcript (snd (main extract c s)))
  = (message_images_list (transcript s) ++
     match new_turn extract c s with
     | Some u => message_images u
     | None => []
     end)%list.
Proof.
  rewrite transcript_main. unfold message_images_list at 1.
  rewrite flat_map_app. fold (message_images_list (seeded s)).
  rewrite message_images_list_seeded. f_equal.
  destruct (new_turn extract c s) as [u|]; [|reflexivity].
  destruct (conversation c (payload_of u)); simpl; now rewrite ?app_nil_r.
Qed.

Lemma processed_iff (mil : list string) (f : UploadedFile) :
  processed mil f = true <-> In (file_id f) mil.
Proof.
  unfold processed. rewrite existsb_exists. split.
  - intros [x [Hin Heq]]. apply String.eqb_eq in Heq. now subst.
  - intros Hin. exists (file_id f). split; [assumption | apply String.eqb_refl].
Qed.

Lemma unprocessed_fresh (files : list UploadedFile) (mil : list string) (id : string) :
  In id mil -> ~ In id (map file_id (unprocessed files mil)).
Proof.
  intros Hid Hin. apply in_map_iff in Hin. destruct Hin as [f [<- Hf]].
  unfold unprocessed in Hf. apply filter_In in Hf. destruct Hf as [_ Hf].
  apply processed_iff in Hid. rewrite Hid in Hf. discriminate.
Qed.

Lemma unprocessed_nil (files : list UploadedFile) : unprocessed files [] = files.
Proof.
  unfold unprocessed. induction files as [|f files IH]; simpl; [reflexivity|].
  f_equal. exact IH.
Qed.

Lemma calls_main (c : cycle) (s : session) :
  calls (snd (main extract c s)) = (calls s ++ calls_of extract c s)%list.
Proof.
  rewrite calls_of_eq, main_eq.
  destruct (new_turn extract c s) as [u|].
  - destruct (conversation c (payload_of u)); reflexivity.
  - simpl. now rewrite app_nil_r.
Qed.

Lemma calls_run (cycles : list cycle) :
  forall s, calls (run extract cycles s) = (calls s ++ calls_during extract cycles s)%list.
Proof.
  induction cycles as [|c cycles IH]; intros s.
  - unfold calls_during. simpl. rewrite skipn_all. now rewrite app_nil_r.
  - unfold calls_during. simpl. rewrite IH, calls_main, <- app_assoc.
    now rewrite skipn_length_app.
Qed.

Lemma calls_during_cons (c : cycle) (cycles : list cycle) (s : session) :
  calls_during extract (c :: cycles) s
  = (calls_of extract c s ++ calls_during extract cycles (snd (main extract c s)))%list.
Proof.
  unfold calls_during at 1. simpl.
  rewrite calls_run, calls_main, <- app_assoc. apply skipn_length_app.
Qed.

Lemma processed_grow (cycles : list cycle) :
  forall s, exists new,
    message_images_list (transcript (run extract cycles s))
    = (message_images_list (transcript s) ++ new)%list.
Proof.
  induction cycles as [|c cycles IH]; intros s.
  - exists []. simpl. now rewrite app_nil_r.
  - simpl. destruct (IH (snd (main extract c s))) as [new Hnew].
    rewrite Hnew, message_images_list_main, <- app_assoc. eauto.
Qed.

Lemma processed_not_resubmitted (cycles : list cycle) :
  forall s id fs,
    In id (message_images_list (transcript s)) ->
    In fs (builder_inputs (calls_during extract cycles s)) ->
    ~ In id (map file_id fs).
Proof.
  induction cycles as [|c cycles IH]; intros s id fs Hid Hfs.
  - unfold calls_during in Hfs. simpl in Hfs. rewrite skipn_all in Hfs.
    destruct Hfs.
  - rewrite calls_during_cons, builder_inputs_app in Hfs.
    apply in_app_or in Hfs. destruct Hfs as [Hfs|Hfs].
    + rewrite builder_inputs_of in Hfs.
      destruct (file_branch c s); [|destruct Hfs].
      destruct Hfs as [<-|[]]. unfold pending_files.
      apply unprocessed_fresh. now rewrite message_images_list_seeded.
    + apply (IH (snd (main extract c s))); [|assumption].
      rewrite message_images_list_main. apply in_or_app. now left.
Qed.

Lemma same_files_step (files : list UploadedFile) (c : cycle) (s : session) (b : bool) :
  uploaded_files c = files ->
  message_images_list (transcript s) = (if b then map file_id files else []) ->
  message_images_list (transcript (snd (main extract c s)))
  = if b || has_prompt c then map file_id files else [].
Proof.
  intros Hf Hmil. rewrite message_images_list_main.
  unfold new_turn, effective_input, has_prompt, file_branch, pending_files.
  rewrite message_images_list_seeded, Hmil, Hf.
  destruct (truthy (prompt c)) as [p|].
  - destruct b; simpl.
    + unfold has_new_files. rewrite length_map, Nat.ltb_irrefl, andb_false_r.
      simpl. now rewrite app_nil_r.
    + destruct files as [|f files]; [reflexivity|].
      change (has_new_files [] (f :: files)) with true. cbv iota.
      rewrite message_images_user. now rewrite unprocessed_nil.
  - rewrite app_nil_r, orb_false_r. reflexivity.
Qed.

Lemma same_files_run (files : list UploadedFile) (cycles : list cycle) :
  Forall (fun c => uploaded_files c = files) cycles ->
  forall (s : session) (b : bool),
    message_images_list (transcript s) = (if b then map file_id files else []) ->
    message_images_list (transcript (run extract cycles s))
    = if b || existsb has_prompt cycles then map file_id files else [].
Proof.
  induction 1 as [|c cycles Hc _ IH]; intros s b Hs.
  - simpl. now rewrite orb_false_r.
  - simpl. rewrite (IH _ (b || has_prompt c)).
    + now rewrite orb_assoc.
    + now apply same_files_step.
Qed.

Lemma NoDup_map_filter (A B : Type) (f : A -> B) (keep : A -> bool) (l : list A) :
  NoDup (map f l) -> NoDup (map f (filter keep l)).
Proof.
  induction l as [|a l IH]; simpl; intros Hnd; [constructor|].
  inversion Hnd as [|x xs Hnotin Hrest]; subst.
  destruct (keep a); simpl; [|now apply IH].
  constructor; [|now apply IH].
  intros Hin. apply Hnotin. apply in_map_iff in Hin.
  destruct Hin as [y [Hy Hin]]. apply filter_In in Hin.
  apply in_map_iff. exists y. tauto.
Qed.

Lemma processed_once_step (c : cycle) (s : session) :
  NoDup (message_images_list (transcript s)) ->
  NoDup (map file_id (uploaded_files c)) ->
  NoDup (message_images_list (transcript (snd (main extract c s)))).
Proof.
  intros Hs Hc. rewrite message_images_list_main.
  unfold new_turn. destruct (effective_input extract c s) as [t|];
    [|now rewrite app_nil_r].
  destruct (file_branch c s).
  - rewrite message_images_user. unfold pending_files.
    rewrite message_images_list_seeded. apply NoDup_app.
    + assumption.
    + now apply NoDup_map_filter.
    + intros id. apply unprocessed_fresh.
  - simpl. now rewrite app_nil_r.
Qed.

Lemma processed_once (cycles : list cycle) :
  Forall (fun c => NoDup (map file_id (uploaded_files c))) cycles ->
  forall s : session,
    NoDup (message_images_list (transcript s)) ->
    NoDup (message_images_list (transcript (run extract cycles s))).
Proof.
  induction 1 as [|c cycles Hc _ IH]; intros s Hs; simpl.
  - assumption.
  - apply IH. now apply processed_once_step.
Qed.

Lemma no_prompt_appends_nothing (c : cycle) (s : session) :
  has_prompt c = false -> appended extract c s = [].
Proof.
  intros Hp. rewrite appended_eq. unfold new_turn, effective_input.
  unfold has_prompt in Hp. destruct (truthy (prompt c)); [discriminate | reflexivity].
Qed.

(** The user Turn of a rerun that takes the file branch with a chat input,
    written without the loop of lines 132-138 and the test of line 140. *)
Lemma merged_turn (c : cycle) (s : session) (p : string) :
  prompt c = Some p ->
  p <> "" ->
  has_new_files (message_images_list (seeded s)) (uploaded_files c) = true ->
  new_turn extract c s
  = Some (user_message
            (format_prompt c
               (if is_empty (texts_of (extract_all extract (pending_files c s)))
                then p
                else "Here is some context for you: " ++ LF ++ "<context>" ++ LF ++
                     join (map (fun x => x ++ LF ++ LF)
                               (texts_of (extract_all extract (pending_files c s)))) ++
                     "</context>" ++ LF ++ LF ++ p)%string ++
             filter is_image (extract_all extract (pending_files c s)))%list
            (Some (map file_id (pending_files c s)))).
Proof.
  intros Hp Hne Hb. unfold new_turn, effective_input, file_branch.
  rewrite (truthy_some _ _ Hp Hne), Hb.
  unfold pending_context, partition_context. rewrite partition_fold. simpl fst. simpl snd.
  change ("" ++ join (map (fun x => x ++ LF ++ LF)
                          (texts_of (extract_all extract (pending_files c s)))))
    with (join (map (fun x => x ++ LF ++ LF)
                    (texts_of (extract_all extract (pending_files c s))))).
  destruct (texts_of (extract_all extract (pending_files c s))) as [|t ts].
  - reflexivity.
  - destruct t; reflexivity.
Qed.

(** C3, as the code has it: over any sequence of reruns the identifiers
    held by past Turns only grow; a file whose identifier a past Turn holds
    is never among the files a later rerun hands to the File Context
    Builder; no identifier comes to be held twice as long as each selection
    has distinct files.  Files are merged exactly in a rerun that has a
    chat input and passes line 125's count test: its user Turn then holds
    the identifiers of all unprocessed files, their text items in the
    context wrapper in front of the chat input and their image items
    behind the formatted text, in order.  A rerun without chat input
    appends nothing, and one that fails the count test appends the chat
    input alone, neither adding an identifier.  When every rerun of a
    session sees the same selection of distinct files from the start, each
    file's identifier is held exactly once as soon as one rerun had a chat
    input, and not at all before. *)
Theorem upload_processing_idempotent :
  (forall cycles s, exists new,
     message_images_list (transcript (run extract cycles s))
     = (message_images_list (transcript s) ++ new)%list)
  /\ (forall cycles s id fs,
        In id (message_images_list (transcript s)) ->
        In fs (builder_inputs (calls_during extract cycles s)) ->
        ~ In id (map file_id fs))
  /\ (forall cycles files f,
        NoDup (map file_id files) ->
        Forall (fun c => uploaded_files c = files) cycles ->
        In f files ->
        count_occ string_dec
          (message_images_list (transcript (run extract cycles new_session)))
          (file_id f)
        = if existsb has_prompt cycles then 1 else 0)
  /\ (forall cycles s,
        NoDup (message_images_list (transcript s)) ->
        Forall (fun c => NoDup (map file_id (uploaded_files c))) cycles ->
        NoDup (message_images_list (transcript (run extract cycles s))))
  /\ (forall c s p,
        prompt c = Some p ->
        p <> "" ->
        has_new_files (message_images_list (seeded s)) (uploaded_files c) = true ->
        hd_error (appended extract c s)
        = Some (user_message
                  (format_prompt c
                     (if is_empty
                           (texts_of
                              (extract_all extract
                                 (unprocessed (uploaded_files c)
                                    (message_images_list (seeded s)))))
                      then p
                      else "Here is some context for you: " ++ LF ++
                           "<context>" ++ LF ++
                           join (map (fun x => x ++ LF ++ LF)
                                   (texts_of
                                      (extract_all extract
                                         (unprocessed (uploaded_files c)
                                            (message_images_list (seeded s)))))) ++
                           "</context>" ++ LF ++ LF ++ p)%string ++
                   filter is_image
                     (extract_all extract
                        (unprocessed (uploaded_files c)
                           (message_images_list (seeded s)))))%list
                  (Some (map file_id
                           (unprocessed (uploaded_files c)
                              (message_images_list (seeded s))))))
        /\ message_images_list (transcript (snd (main extract c s)))
           = (message_images_list (transcript s) ++
              map file_id
                (unprocessed (uploaded_files c)
                   (message_images_list (seeded s))))%list)
  /\ (forall c s,
        has_prompt c = false ->
        appended extract c s = []
        /\ message_images_list (transcript (snd (main extract c s)))
           = message_images_list (transcript s))
  /\ (forall c s p,
        prompt c = Some p ->
        p <> "" ->
        has_new_files (message_images_list (seeded s)) (uploaded_files c) = false ->
        hd_error (appended extract c s)
        = Some (user_message (format_prompt c p) None)
        /\ message_images_list (transcript (snd (main extract c s)))
           = message_images_list (transcript s)).
Proof.
  split; [exact processed_grow|]. split; [exact processed_not_resubmitted|].
  split.
  { intros cycles files f Hnd Hall Hf.
    rewrite (same_files_run files cycles Hall new_session false) by reflexivity.
    simpl. destruct (existsb has_prompt cycles); [|reflexivity].
    apply NoDup_count_occ'; [assumption | now apply in_map]. }
  split.
  { intros cycles s Hs Hall. now apply processed_once. }
  split.
  { intros c s p Hp Hne Hb.
    rewrite message_images_list_main, appended_eq.
    rewrite (merged_turn c s p Hp Hne Hb). fold (pending_files c s).
    rewrite message_images_user.
    split; [|reflexivity].
    destruct (conversation c _); reflexivity. }
  split.
  { intros c s Hp. split; [now apply no_prompt_appends_nothing|].
    rewrite message_images_list_main. unfold new_turn, effective_input.
    unfold has_prompt in Hp.
    destruct (truthy (prompt c)); [discriminate | now rewrite app_nil_r]. }
  intros c s p Hp Hne Hb.
  rewrite message_images_list_main, appended_eq.
  unfold new_turn, effective_input, file_branch.
  rewrite (truthy_some _ _ Hp Hne), Hb. simpl. rewrite app_nil_r.
  split; [|reflexivity].
  destruct (conversation c _); reflexivity.
Qed.

End ProcessedFiles.

(** Three reruns with [battery_txt] selected: its identifier is held once;
    the answered file is not handed to the builder again when a second
    file joins it; and a question about a text and an image file puts the
    text in the wrapper, the image behind it and both identifiers on the
    Turn. *)
Lemma upload_processing_idempotent_witness :
  count_occ string_dec
    (message_images_list
       (transcript
          (run extract_by_mime
             [ask None [battery_txt] (Completed "a0");
              ask (Some "q1") [battery_txt] (Completed "a1");
              ask (Some "q2") [battery_txt] (Completed "a2")]
             new_session)))
    "f-1"
  = 1
  /\ ~ In "f-1" (map file_id [photo_png])
  /\ hd_error (appended extract_by_mime
                 (ask (Some "q") [battery_txt; photo_png] (Completed "a"))
                 new_session)
     = Some (user_message
               [text_part ("Here is some context for you: " ++ LF ++
                           "<context>" ++ LF ++
                           ("Great battery life." ++ LF ++ LF) ++
                           "</context>" ++ LF ++ LF ++ "q");
                image_part "iVBORw0KGgo="]
               (Some ["f-1"; "f-2"])).
Proof.
  split; [|split].
  - apply (proj1 (proj2 (proj2 (upload_processing_idempotent extract_by_mime)))
             [ask None [battery_txt] (Completed "a0");
              ask (Some "q1") [battery_txt] (Completed "a1");
              ask (Some "q2") [battery_txt] (Completed "a2")]
             [battery_txt] battery_txt).
    + constructor; [intros [] | constructor].
    + repeat constructor.
    + left. reflexivity.
  - apply (proj1 (proj2 (upload_processing_idempotent extract_by_mime))
             [ask (Some "q2") [battery_txt; photo_png] (Completed "a2")]
             answered_session "f-1" [photo_png]).
    + left. reflexivity.
    + left. reflexivity.
  - apply (proj1 (proj2 (proj2 (proj2 (proj2
                   (upload_processing_idempotent extract_by_mime)))))
             (ask (Some "q") [battery_txt; photo_png] (Completed "a"))
             new_session "q").
    + reflexivity.
    + discriminate.
    + reflexivity.
Defined.

(** C3 as the spec words it fails in a session the code reaches: after one
    answered question about [battery_txt], three reruns with a chat input
    all see the same selection [photo_png].  The file is unprocessed, yet
    line 125's count test fails each time, the File Context Builder is
    never invoked, no Turn comes to hold the file's identifier and none
    holds its image: it is merged zero times, not once. *)
Lemma swapped_file_is_never_merged :
  reachable extract_by_mime answered_session
  /\ unprocessed [photo_png] (message_images_list (seeded answered_session))
     = [photo_png]
  /\ builder_inputs
       (calls_during extract_by_mime
          [ask (Some "q2") [photo_png] (Completed "a2");
           ask (Some "q3") [photo_png] (Completed "a3");
           ask (Some "q4") [photo_png] (Completed "a4")]
          answered_session)
     = []
  /\ count_occ string_dec
       (message_images_list
          (transcript
             (run extract_by_mime
                [ask (Some "q2") [photo_png] (Completed "a2");
                 ask (Some "q3") [photo_png] (Completed "a3");
                 ask (Some "q4") [photo_png] (Completed "a4")]
                answered_session)))
       "f-2"
     = 0
  /\ skipn 3
       (transcript
          (run extract_by_mime
             [ask (Some "q2") [photo_png] (Completed "a2");
              ask (Some "q3") [photo_png] (Completed "a3");
              ask (Some "q4") [photo_png] (Completed "a4")]
             answered_session))
     = [user_message [text_part "q2"] None; assistant_message "a2";
        user_message [text_part "q3"] None; assistant_message "a3";
        user_message [text_part "q4"] None; assistant_message "a4"].
Proof.
  split.
  - apply (reachable_rerun extract_by_mime
             (ask (Some "q1") [battery_txt] (Completed "a1")) new_session).
    apply reachable_new.
  - repeat split; reflexivity.
Qed.

(** ** The transcript (lines 18-21, 105-106) *)

Section Transcript.

Variable extract : UploadedFile -> option content_file.

Lemma messages_main (c : cycle) (s : session) :
  messages (snd (main extract c s))
  = Some (seeded s ++ appended extract c s)%list.
Proof.
  rewrite appended_eq, main_eq.
  destruct (new_turn extract c s) as [u|].
  - destruct (conversation c (payload_of u)); reflexivity.
  - simpl. now rewrite app_nil_r.
Qed.

Lemma reachable_seeded (s : session) :
  reachable extract s ->
  s = new_session \/ exists rest, messages s = Some (INIT_MESSAGE :: rest).
Proof.
  induction 1 as [|c s Hs IH].
  - now left.
  - right. rewrite messages_main.
    destruct IH as [->|[rest Hrest]].
    + simpl. eauto.
    + unfold seeded. rewrite Hrest. simpl. eauto.
Qed.

Lemma last_role_defined (l : list message) : l <> [] -> last_role l <> None.
Proof.
  intros Hl. unfold last_role. destruct (rev l) as [|m rest] eqn:E.
  - apply (f_equal (@rev message)) in E. rewrite rev_involutive in E.
    simpl in E. contradiction.
  - discriminate.
Qed.

(** C9: line 106 seeds a new session's transcript with the one assistant
    greeting; a rerun leaves the entries it found in place and only adds
    behind them; so every session reached by reruns has a transcript that
    starts with the greeting, and line 161's look at the last Turn never
    fails. *)
Theorem transcript_append_only :
  (messages (snd (seed_messages new_session)) = Some [INIT_MESSAGE]
   /\ role INIT_MESSAGE = "assistant")
  /\ (forall c s l, messages s = Some l ->
        exists added, messages (snd (main extract c s)) = Some (l ++ added)%list)
  /\ (forall s, reachable extract s ->
        s = new_session \/ exists rest, messages s = Some (INIT_MESSAGE :: rest))
  /\ (forall c s, reachable extract s ->
        last_role (transcript (after_user_chat extract c s)) <> None
        /\ fst (main extract c s) <> Raised IndexError).
Proof.
  split; [split; reflexivity|].
  split.
  { intros c s l Hl. exists (appended extract c s).
    rewrite messages_main. unfold seeded. now rewrite Hl. }
  split; [exact reachable_seeded|].
  intros c s Hs.
  assert (Hne : seeded s <> []).
  { destruct (reachable_seeded s Hs) as [->|[rest Hrest]].
    - discriminate.
    - unfold seeded. rewrite Hrest. discriminate. }
  split.
  - rewrite after_user_chat_eq. unfold transcript. simpl.
    apply last_role_defined. intros H. apply app_eq_nil in H. tauto.
  - rewrite main_eq.
    destruct (new_turn extract c s) as [u|].
    + destruct (conversation c (payload_of u)); discriminate.
    + simpl. pose proof (last_role_defined _ Hne) as Hl.
      destruct (last_role (seeded s)) as [r|]; [|contradiction].
      destruct (r =? "assistant"); discriminate.
Qed.

End Transcript.

Lemma transcript_append_only_witness :
  (exists added,
     messages (snd (main extract_by_mime (ask (Some "q2") [] (Completed "a2"))
                      answered_session))
     = Some (transcript answered_session ++ added)%list)
  /\ fst (main extract_by_mime (ask None [] (Completed "a2")) answered_session)
     <> Raised IndexError.
Proof.
  split.
  - apply (proj1 (proj2 (transcript_append_only extract_by_mime))
             (ask (Some "q2") [] (Completed "a2")) answered_session).
    reflexivity.
  - apply (proj2 (proj2 (proj2 (transcript_append_only extract_by_mime)))
             (ask None [] (Completed "a2")) answered_session).
    apply (reachable_rerun extract_by_mime
             (ask (Some "q1") [battery_txt] (Completed "a1")) new_session).
    apply reachable_new.
Defined.

(** ** Dispatch (lines 161-167) *)

Section Dispatch.

Variable extract : UploadedFile -> option content_file.

Lemma new_turn_is_user (c : cycle) (s : session) (u : message) :
  new_turn extract c s = Some u -> role u = "user".
Proof.
  unfold new_turn. destruct (effective_input extract c s); [|discriminate].
  destruct (file_branch c s); intros [= <-]; reflexivity.
Qed.


(** A rerun calls the Model Client at most once. *)
Lemma model_called_at_most_once (c : cycle) (s : session) :
  length (model_payloads (calls_of extract c s)) <= 1.
Proof.
  rewrite model_payloads_of. destruct (new_turn extract c s); simpl; lia.
Qed.

(** No call is made when, after lines 105-155, the last Turn is the
    assistant's. *)
Lemma answered_transcript_is_not_dispatched (c : cycle) (s : session) :
  last_role (transcript (after_user_chat extract c s)) = Some "assistant" ->
  model_payloads (calls_of extract c s) = [].
Proof.
  rewrite after_user_chat_eq, model_payloads_of. unfold transcript. simpl.
  destruct (new_turn extract c s) as [u|] eqn:E; [|reflexivity].
  rewrite last_role_snoc, (new_turn_is_user _ _ _ E). discriminate.
Qed.

(** A call answers the user Turn appended by the same rerun: its payload
    carries that Turn's content, and that Turn is the transcript's last. *)
Lemma dispatched_prompt_is_fresh (c : cycle) (s : session) (payload : list message) :
  In payload (model_payloads (calls_of extract c s)) ->
  exists u, new_turn extract c s = Some u
            /\ payload = payload_of u
            /\ transcript (after_user_chat extract c s) = (seeded s ++ [u])%list
            /\ last_role (transcript (after_user_chat extract c s)) = Some "user".
Proof.
  rewrite model_payloads_of, after_user_chat_eq. unfold transcript. simpl.
  destruct (new_turn extract c s) as [u|] eqn:E; [|intros []].
  intros [<-|[]]. exists u. repeat split.
  rewrite last_role_snoc. now rewrite (new_turn_is_user _ _ _ E).
Qed.


End Dispatch.


(** C1 at a rerun the code can see: the first rerun's Model Client call
    failed, the next rerun has no chat input.  After lines 105-155 the last
    Turn is the user's, yet the Model Client is not called: line 164 reads
    [formatted_prompt], which this rerun never assigned. *)
Theorem pending_turn_is_not_dispatched :
  transcript unanswered_session
  = [INIT_MESSAGE; user_message [text_part "hi"] None]
  /\ last_role
       (transcript
          (after_user_chat extract_by_mime (ask None [] (Completed "hello"))
             unanswered_session))
     = Some "user"
  /\ main extract_by_mime (ask None [] (Completed "hello")) unanswered_session
     = (Raised (UnboundLocalError "formatted_prompt"), unanswered_session)
  /\ model_payloads
       (calls_of extract_by_mime (ask None [] (Completed "hello"))
          unanswered_session)
     = [].
Proof.
  repeat split; reflexivity.
Qed.

(** C4 at a rerun the code can see: the first rerun's Model Client call
    failed, the next rerun selects a file and has no chat input.  Line 125's
    branch runs without assigning [formatted_prompt], line 161's test
    holds, and line 164 reads the unassigned variable. *)
Theorem unassigned_prompt_is_read :
  file_branch (ask None [battery_txt] (Completed "hello")) unanswered_session
  = true
  /\ new_turn extract_by_mime (ask None [battery_txt] (Completed "hello"))
       unanswered_session
     = None
  /\ last_role
       (transcript
          (after_user_chat extract_by_mime
             (ask None [battery_txt] (Completed "hello")) unanswered_session))
     = Some "user"
  /\ main extract_by_mime (ask None [battery_txt] (Completed "hello"))
       unanswered_session
     = (Raised (UnboundLocalError "formatted_prompt"),
        {| messages := messages unanswered_session;
           calls := (calls unanswered_session
                     ++ [FileContextBuilder [battery_txt]])%list |}).
Proof.
  repeat split; reflexivity.
Qed.

(** * Further properties of the chat part *)

Section TranscriptShape.

Variable extract : UploadedFile -> option content_file.

Lemma appended_roles (c : cycle) (s : session) :
  Forall (fun m => role m = "user" \/ role m = "assistant") (appended extract c s).
Proof.
  rewrite appended_eq.
  destruct (new_turn extract c s) as [u|] eqn:E; [|constructor].
  pose proof (new_turn_is_user extract _ _ _ E) as Hu.
  destruct (conversation c (payload_of u)).
  - constructor; [now left|]. constructor; [now right | constructor].
  - constructor; [now left | constructor].
Qed.

Lemma transcript_after (c : cycle) (s : session) :
  transcript (snd (main extract c s)) = (seeded s ++ appended extract c s)%list.
Proof.
  unfold transcript. now rewrite messages_main.
Qed.

Lemma seeded_roles (s : session) :
  Forall (fun m => role m = "user" \/ role m = "assistant") (transcript s) ->
  Forall (fun m => role m = "user" \/ role m = "assistant") (seeded s).
Proof.
  unfold transcript, seeded. destruct (messages s); [trivial|].
  intros _. constructor; [now right | constructor].
Qed.

(** X1: Every Turn of a session reached by reruns has role user or assistant,
    so line 161's test [!= "assistant"] picks exactly the transcripts whose
    last Turn is a user's. *)
Theorem reachable_roles (s : session) :
  reachable extract s ->
  Forall (fun m => role m = "user" \/ role m = "assistant") (transcript s)
  /\ forall c,
       last_role (transcript (after_user_chat extract c s)) = Some "user"
       \/ last_role (transcript (after_user_chat extract c s)) = Some "assistant".
Proof.
  intros Hs.
  assert (Hall : Forall (fun m => role m = "user" \/ role m = "assistant")
                        (transcript s)).
  { induction Hs as [|c s Hs IH]; [constructor|].
    rewrite transcript_after. apply Forall_app. split.
    - now apply seeded_roles.
    - apply appended_roles. }
  split; [exact Hall|]. intros c.
  rewrite after_user_chat_eq. unfold transcript. simpl.
  destruct (new_turn extract c s) as [u|] eqn:E.
  - left. rewrite last_role_snoc. now rewrite (new_turn_is_user extract _ _ _ E).
  - rewrite app_nil_r. apply seeded_roles in Hall.
    unfold last_role. rewrite <- (rev_involutive (seeded s)) in Hall.
    destruct (rev (seeded s)) as [|m rest] eqn:Hrev.
    + exfalso. apply (f_equal (@rev message)) in Hrev.
      rewrite rev_involutive in Hrev. simpl in Hrev.
      unfold seeded in Hrev. destruct (reachable_seeded extract s Hs) as [->|[r Hr]].
      * discriminate.
      * rewrite Hr in Hrev. discriminate.
    + simpl in Hall. apply Forall_app in Hall. destruct Hall as [_ Hm].
      inversion Hm as [|x xs [Hx|Hx] _]; subst; rewrite Hx; auto.
Qed.

Lemma no_adjacent_assistants_app_user (l r : list message) (u : message) :
  role u = "user" ->
  no_adjacent_assistants l = true ->
  no_adjacent_assistants (u :: r) = true ->
  no_adjacent_assistants (l ++ u :: r) = true.
Proof.
  intros Hu. induction l as [|a [|b t] IH]; intros Hl Hr.
  - exact Hr.
  - change ([a] ++ u :: r)%list with (a :: u :: r).
    cbn [no_adjacent_assistants]. rewrite Hu at 1.
    change ("user" =? "assistant") with false.
    rewrite andb_false_r. simpl negb. rewrite andb_true_l. exact Hr.
  - change ((a :: b :: t) ++ u :: r)%list with (a :: b :: (t ++ u :: r)%list).
    cbn [no_adjacent_assistants] in Hl |- *.
    apply andb_true_iff in Hl. destruct Hl as [Hab Ht].
    rewrite Hab. rewrite andb_true_l. apply IH; assumption.
Qed.

Lemma no_adjacent_assistants_seeded (s : session) :
  no_adjacent_assistants (transcript s) = true ->
  no_adjacent_assistants (seeded s) = true.
Proof.
  unfold transcript, seeded. destruct (messages s); [trivial | reflexivity].
Qed.

(** X2: In a session reached by reruns no assistant Turn directly follows
    another: each answer stands right behind the user Turn it answers. *)
Theorem reachable_no_adjacent_answers (s : session) :
  reachable extract s -> no_adjacent_assistants (transcript s) = true.
Proof.
  induction 1 as [|c s Hs IH]; [reflexivity|].
  rewrite transcript_after, appended_eq.
  apply no_adjacent_assistants_seeded in IH.
  destruct (new_turn extract c s) as [u|] eqn:E; [|now rewrite app_nil_r].
  pose proof (new_turn_is_user extract _ _ _ E) as Hu.
  destruct (conversation c (payload_of u)).
  - apply no_adjacent_assistants_app_user; try assumption.
    cbn [no_adjacent_assistants]. rewrite Hu. reflexivity.
  - apply no_adjacent_assistants_app_user; try assumption. reflexivity.
Qed.

Lemma count_role_app (r : string) (l1 l2 : list message) :
  count_role r (l1 ++ l2) = count_role r l1 + count_role r l2.
Proof.
  unfold count_role. now rewrite filter_app, length_app.
Qed.

Lemma count_role_seeded_user (s : session) :
  count_role "user" (seeded s) = count_role "user" (transcript s).
Proof.
  unfold seeded, transcript. destruct (messages s); reflexivity.
Qed.

(** X3: In a session reached by reruns every user Turn went through the Prompt
    Formatter once and to the Model Client once, and the assistant Turns
    are the greeting and at most one answer per user Turn. *)
Theorem reachable_turn_counts (s : session) :
  reachable extract s ->
  count_role "user" (transcript s) = length (formatter_inputs (calls s))
  /\ count_role "user" (transcript s) = length (model_payloads (calls s))
  /\ count_role "assistant" (transcript s) <= 1 + count_role "user" (transcript s).
Proof.
  intros Hs.
  assert (H : count_role "user" (transcript s) = length (formatter_inputs (calls s))
              /\ count_role "user" (transcript s) = length (model_payloads (calls s))
              /\ count_role "assistant" (seeded s)
                 <= 1 + count_role "user" (transcript s)).
  { induction Hs as [|c s Hs [IH1 [IH2 IH3]]].
    - unfold count_role. simpl. lia.
    - assert (Hsd : seeded (snd (main extract c s))
                    = transcript (snd (main extract c s))).
      { unfold seeded, transcript. now rewrite messages_main. }
      rewrite Hsd, transcript_after, calls_main, appended_eq.
      rewrite formatter_inputs_app, model_payloads_app, !length_app.
      rewrite formatter_inputs_of, model_payloads_of, !count_role_app.
      rewrite count_role_seeded_user.
      unfold new_turn.
      destruct (effective_input extract c s) as [t|]; simpl.
      + set (u := if file_branch c s then _ else _).
        assert (Hu : role u = "user") by (subst u; destruct (file_branch c s); reflexivity).
        destruct (conversation c (payload_of u)); unfold count_role in *; simpl;
          rewrite Hu; simpl; lia.
      + unfold count_role in *. simpl. lia. }
  destruct H as [H1 [H2 H3]]. repeat split; try assumption.
  destruct (reachable_seeded extract s Hs) as [->|[rest Hrest]].
  - unfold count_role. simpl. lia.
  - unfold seeded in H3. unfold transcript at 1. rewrite Hrest in *. exact H3.
Qed.

End TranscriptShape.

Lemma reachable_roles_witness :
  Forall (fun m => role m = "user" \/ role m = "assistant")
         (transcript answered_session)
  /\ forall c,
       last_role (transcript (after_user_chat extract_by_mime c answered_session))
       = Some "user"
       \/ last_role (transcript (after_user_chat extract_by_mime c answered_session))
          = Some "assistant".
Proof.
  apply (reachable_roles extract_by_mime answered_session).
  apply (reachable_rerun extract_by_mime
           (ask (Some "q1") [battery_txt] (Completed "a1")) new_session).
  apply reachable_new.
Defined.

Lemma reachable_no_adjacent_answers_witness :
  no_adjacent_assistants (transcript unanswered_session) = true.
Proof.
  apply (reachable_no_adjacent_answers extract_by_mime unanswered_session).
  apply (reachable_rerun extract_by_mime
           (ask (Some "hi") [] (Failed "ProviderError")) new_session).
  apply reachable_new.
Defined.

Lemma reachable_turn_counts_witness :
  count_role "user" (transcript answered_session)
  = length (formatter_inputs (calls answered_session))
  /\ count_role "user" (transcript answered_session)
     = length (model_payloads (calls answered_session))
  /\ count_role "assistant" (transcript answered_session)
     <= 1 + count_role "user" (transcript answered_session).
Proof.
  apply (reachable_turn_counts extract_by_mime answered_session).
  apply (reachable_rerun extract_by_mime
           (ask (Some "q1") [battery_txt] (Completed "a1")) new_session).
  apply reachable_new.
Defined.

Section RerunShape.

Variable extract : UploadedFile -> option content_file.

Lemma no_prompt_no_turn (c : cycle) (s : session) :
  has_prompt c = false ->
  effective_input extract c s = None /\ new_turn extract c s = None.
Proof.
  unfold has_prompt, new_turn, effective_input.
  destruct (truthy (prompt c)); [discriminate | auto].
Qed.

Lemma prompt_gives_turn (c : cycle) (s : session) :
  has_prompt c = true -> exists u, new_turn extract c s = Some u.
Proof.
  unfold has_prompt, new_turn, effective_input.
  destruct (truthy (prompt c)); [eauto | discriminate].
Qed.

(** X4: A rerun without chat input ([None] or the empty string) on a transcript
    whose last Turn is the assistant's returns normally, leaves the
    transcript as it was and calls neither the Prompt Formatter nor the
    Model Client. *)
Theorem idle_rerun (c : cycle) (s : session) :
  has_prompt c = false ->
  last_role (seeded s) = Some "assistant" ->
  fst (main extract c s) = Returned tt
  /\ transcript (snd (main extract c s)) = seeded s
  /\ formatter_inputs (calls_of extract c s) = []
  /\ model_payloads (calls_of extract c s) = [].
Proof.
  intros Hp Hlast. destruct (no_prompt_no_turn c s Hp) as [He Hn].
  rewrite formatter_inputs_of, model_payloads_of, main_eq, He, Hn, Hlast.
  repeat split; reflexivity.
Qed.

(** X5: A rerun appends two Turns when it has a chat input and returns, one
    when it has a chat input and raises, and none without chat input. *)
Theorem appended_count (c : cycle) (s : session) :
  length (appended extract c s)
  = if has_prompt c
    then match fst (main extract c s) with
         | Returned _ => 2
         | Raised _ => 1
         end
    else 0.
Proof.
  rewrite appended_eq, main_eq.
  destruct (has_prompt c) eqn:Hp.
  - destruct (prompt_gives_turn c s Hp) as [u ->].
    destruct (conversation c (payload_of u)); reflexivity.
  - destruct (no_prompt_no_turn c s Hp) as [_ ->]. reflexivity.
Qed.


Lemma pending_text (c : cycle) (s : session) :
  fst (pending_context extract c s)
  = join (map (fun x => x ++ LF ++ LF)
              (texts_of (extract_all extract (pending_files c s)))).
Proof.
  unfold pending_context, partition_context. now rewrite partition_fold.
Qed.


(** X7: In the file branch the chat input is wrapped exactly when at least one
    text item was extracted, whatever its text: an empty text file still
    yields the wrapper, around a blank line. *)
Theorem wrapper_iff_text_item (c : cycle) (s : session) (p : string) :
  prompt c = Some p ->
  p <> "" ->
  file_branch c s = true ->
  formatter_inputs (calls_of extract c s)
  = [if is_empty (texts_of (extract_all extract (pending_files c s)))
     then p
     else wrapped (join (map (fun x => x ++ LF ++ LF)
                             (texts_of (extract_all extract (pending_files c s)))))
                  p].
Proof.
  intros Hp Hne Hb. pose proof (truthy_some _ _ Hp Hne) as Ht.
  rewrite formatter_inputs_of. unfold effective_input. rewrite Ht, Hb.
  rewrite pending_text.
  destruct (texts_of (extract_all extract (pending_files c s))) as [|t ts].
  - reflexivity.
  - destruct t; reflexivity.
Qed.

End RerunShape.

Lemma idle_rerun_witness :
  fst (main extract_by_mime (ask (Some "") [battery_txt] (Completed "a2"))
         answered_session)
  = Returned tt
  /\ transcript
       (snd (main extract_by_mime (ask (Some "") [battery_txt] (Completed "a2"))
               answered_session))
     = seeded answered_session
  /\ formatter_inputs
       (calls_of extract_by_mime (ask (Some "") [battery_txt] (Completed "a2"))
          answered_session)
     = []
  /\ model_payloads
       (calls_of extract_by_mime (ask (Some "") [battery_txt] (Completed "a2"))
          answered_session)
     = [].
Proof.
  apply (idle_rerun extract_by_mime
           (ask (Some "") [battery_txt] (Completed "a2")) answered_session).
  - reflexivity.
  - reflexivity.
Defined.


Lemma wrapper_iff_text_item_witness :
  formatter_inputs
    (calls_of extract_by_mime (ask (Some "hi") [empty_txt] (Completed "ok"))
       new_session)
  = [wrapped (LF ++ LF) "hi"].
Proof.
  apply (wrapper_iff_text_item extract_by_mime
           (ask (Some "hi") [empty_txt] (Completed "ok")) new_session "hi").
  - reflexivity.
  - discriminate.
  - reflexivity.
Defined.

(** ** More on the pure parts *)

Lemma texts_of_app (a b : list content_file) :
  texts_of (a ++ b) = (texts_of a ++ texts_of b)%list.
Proof. apply flat_map_app. Qed.

Lemma join_app (a b : list string) : join (a ++ b) = join a ++ join b.
Proof.
  induction a as [|x a IH]; simpl; [reflexivity|].
  now rewrite IH, append_assoc.
Qed.

(** X8: The loop of lines 134-138 loses and repeats nothing: every item lands
    either in the context text or among the images; and the context of two
    batches of items is the context of the first followed by the context
    of the second. *)
Theorem partition_context_app (a b : list content_file) :
  partition_context (a ++ b)
  = (fst (partition_context a) ++ fst (partition_context b),
     (snd (partition_context a) ++ snd (partition_context b))%list)
  /\ length (texts_of (a ++ b)) + length (snd (partition_context (a ++ b)))
     = length (a ++ b).
Proof.
  unfold partition_context. rewrite !partition_fold. simpl.
  split.
  - now rewrite texts_of_app, map_app, join_app, filter_app.
  - induction (a ++ b)%list as [|i l IH]; [reflexivity|].
    destruct i; simpl; lia.
Qed.

(** X9: An identifier is among those line 115 collects exactly when some user
    Turn of the transcript carries it in its ["images"] entry; assistant
    Turns and Turns without the entry contribute nothing. *)
Theorem message_images_list_spec (msgs : list message) (id : string) :
  In id (message_images_list msgs)
  <-> exists m, In m msgs /\ role m = "user" /\ In id (attached m).
Proof.
  unfold message_images_list. rewrite in_flat_map.
  split; intros [m [Hm H]]; exists m; (split; [exact Hm|]).
  - unfold message_images in H. unfold attached.
    destruct (String.eqb_spec (role m) "user") as [Hr|Hr]; [|destruct H].
    split; [exact Hr|].
    destruct (images m) as [ids|]; [|destruct H].
    destruct ids; [destruct H | exact H].
  - destruct H as [Hr Hid]. unfold message_images, attached in *.
    rewrite Hr. simpl.
    destruct (images m) as [ids|]; [|destruct Hid].
    destruct ids; [destruct Hid | exact Hid].
Qed.

(** X10: [define_system_prompt] falls back to the empty string exactly for the
    values that are not one of the three options, compared letter for
    letter. *)
Theorem define_system_prompt_fallback (radio_option : string) :
  define_system_prompt radio_option = "" <-> ~ In radio_option radio_options.
Proof.
  unfold define_system_prompt, radio_options.
  destruct (String.eqb_spec radio_option "Summarize") as [H1|H1].
  { split; [discriminate | intros H; exfalso; apply H; simpl; auto]. }
  destruct (String.eqb_spec radio_option "Analyze") as [H2|H2].
  { split; [discriminate | intros H; exfalso; apply H; simpl; auto]. }
  destruct (String.eqb_spec radio_option "Recommend") as [H3|H3].
  { split; [discriminate | intros H; exfalso; apply H; simpl; auto]. }
  split; [|reflexivity].
  intros _ [H|[H|[H|[]]]]; congruence.
Qed.

(** ** Selections over several reruns *)

Section Selections.

Variable extract : UploadedFile -> option content_file.

Lemma processed_count (files : list UploadedFile) (mil : list string) :
  NoDup (map file_id files) ->
  length (filter (processed mil) files) <= length mil.
Proof.
  intros Hnd. rewrite <- (length_map file_id).
  apply NoDup_incl_length.
  - now apply NoDup_map_filter.
  - intros id Hin. apply in_map_iff in Hin. destruct Hin as [f [<- Hf]].
    apply filter_In in Hf. now apply processed_iff.
Qed.

Lemma unprocessed_count (files : list UploadedFile) (mil : list string) :
  NoDup (map file_id files) ->
  length files <= length mil + length (unprocessed files mil).
Proof.
  intros Hnd. pose proof (processed_count files mil Hnd) as Hle.
  pose proof (filter_length (processed mil) files) as Hsum.
  unfold unprocessed. lia.
Qed.

Lemma has_new_files_false (mil : list string) (files : list UploadedFile) :
  length files <= length mil -> has_new_files mil files = false.
Proof.
  intros Hle. apply not_true_is_false. intros H.
  apply has_new_files_iff in H. lia.
Qed.

Lemma has_new_files_grow (mil new : list string) (files : list UploadedFile) :
  has_new_files mil files = false -> has_new_files (mil ++ new) files = false.
Proof.
  unfold has_new_files. intros H. apply andb_false_iff in H.
  apply andb_false_iff. destruct H as [H|H]; [now left | right].
  apply Nat.ltb_ge in H. apply Nat.ltb_ge. rewrite length_app. lia.
Qed.

(** X11: Once a rerun with a chat input has seen a selection of distinct files,
    line 125's test fails for that selection on the next rerun, whatever
    the session held before; and once the test fails for a selection, it
    fails for it after any further reruns. *)
Theorem selection_settles :
  (forall c c' s,
     NoDup (map file_id (uploaded_files c)) ->
     has_prompt c = true ->
     uploaded_files c' = uploaded_files c ->
     file_branch c' (snd (main extract c s)) = false)
  /\ (forall cycles c c' s,
        file_branch c s = false ->
        uploaded_files c' = uploaded_files c ->
        file_branch c' (run extract cycles s) = false).
Proof.
  split.
  - intros c c' s Hnd Hp Heq. unfold file_branch. rewrite Heq.
    rewrite message_images_list_seeded, message_images_list_main.
    unfold new_turn, effective_input. unfold has_prompt in Hp.
    destruct (truthy (prompt c)) as [p|]; [|discriminate].
    destruct (file_branch c s) eqn:Hb.
    + rewrite message_images_user. apply has_new_files_false.
      rewrite length_app, length_map. unfold pending_files.
      rewrite message_images_list_seeded.
      now apply unprocessed_count.
    + simpl. rewrite app_nil_r. rewrite <- message_images_list_seeded. exact Hb.
  - intros cycles c c' s Hb Heq. unfold file_branch in *. rewrite Heq.
    rewrite message_images_list_seeded in *.
    destruct (processed_grow extract cycles s) as [new ->].
    now apply has_new_files_grow.
Qed.

Lemma idle_seeded (c : cycle) (s : session) :
  has_prompt c = false -> seeded (snd (main extract c s)) = seeded s.
Proof.
  intros Hp. destruct (no_prompt_no_turn extract c s Hp) as [_ Hn].
  rewrite main_eq, Hn. reflexivity.
Qed.

(** X12: While a selection waits for a chat input, every rerun hands the same
    unprocessed files to the File Context Builder again and the transcript
    gains nothing. *)
Theorem idle_rerender_reextracts (c : cycle) (n : nat) :
  has_prompt c = false ->
  forall s,
    file_branch c s = true ->
    builder_inputs (calls_during extract (repeat c n) s)
    = repeat (pending_files c s) n
    /\ seeded (run extract (repeat c n) s) = seeded s.
Proof.
  intros Hp. induction n as [|n IH]; intros s Hb.
  - unfold calls_during. simpl. now rewrite skipn_all.
  - simpl repeat. rewrite calls_during_cons, builder_inputs_app, builder_inputs_of, Hb.
    simpl run. pose proof (idle_seeded c s Hp) as Hsd.
    assert (Hb' : file_branch c (snd (main extract c s)) = true).
    { unfold file_branch in *. now rewrite Hsd. }
    destruct (IH _ Hb') as [IH1 IH2]. rewrite IH1, IH2, Hsd.
    unfold pending_files. rewrite Hsd. split; reflexivity.
Qed.

End Selections.

Lemma selection_settles_witness :
  file_branch (ask None [battery_txt; photo_png] (Completed "a"))
    (snd (main extract_by_mime
            (ask (Some "q2") [battery_txt; photo_png] (Completed "a2"))
            answered_session))
  = false
  /\ file_branch (ask (Some "q3") [photo_png] (Completed "a3"))
       (run extract_by_mime [ask (Some "q2") [] (Failed "StreamError")]
          answered_session)
     = false.
Proof.
  split.
  - apply (proj1 (selection_settles extract_by_mime)
             (ask (Some "q2") [battery_txt; photo_png] (Completed "a2"))
             (ask None [battery_txt; photo_png] (Completed "a"))
             answered_session).
    + constructor; [intros [H|[]]; discriminate H|].
      constructor; [intros [] | constructor].
    + reflexivity.
    + reflexivity.
  - apply (proj2 (selection_settles extract_by_mime)
             [ask (Some "q2") [] (Failed "StreamError")]
             (ask (Some "q3") [photo_png] (Completed "a3"))
             (ask (Some "q3") [photo_png] (Completed "a3"))
             answered_session).
    + reflexivity.
    + reflexivity.
Defined.

Lemma idle_rerender_reextracts_witness :
  builder_inputs
    (calls_during extract_by_mime
       (repeat (ask None [battery_txt] (Completed "a")) 3) new_session)
  = repeat [battery_txt] 3
  /\ seeded (run extract_by_mime
               (repeat (ask None [battery_txt] (Completed "a")) 3) new_session)
     = [INIT_MESSAGE].
Proof.
  apply (idle_rerender_reextracts extract_by_mime
           (ask None [battery_txt] (Completed "a")) 3).
  - reflexivity.
  - reflexivity.
Defined.

(** * The sidebar and the whole script *)

Lemma dict_get_set_same (k : string) (v : value) (d : dict) :
  dict_get k (dict_set k v d) = Some v.
Proof.
  induction d as [|[k0 v0] d IH]; simpl.
  - now rewrite String.eqb_refl.
  - destruct (k0 =? k) eqn:E; simpl; rewrite E; [reflexivity | exact IH].
Qed.

Lemma dict_get_set_other (k k' : string) (v : value) (d : dict) :
  k <> k' -> dict_get k' (dict_set k v d) = dict_get k' d.
Proof.
  intros Hne. induction d as [|[k0 v0] d IH]; simpl.
  - destruct (String.eqb_spec k k'); [contradiction | reflexivity].
  - destruct (String.eqb_spec k0 k) as [->|Hk]; simpl.
    + destruct (String.eqb_spec k k'); [contradiction | reflexivity].
    + destruct (k0 =? k'); [reflexivity | exact IH].
Qed.

Lemma uploader_key_ready (st : dict) :
  dict_get "file_uploader_key"
    (match dict_get "file_uploader_key" st with
     | None => dict_set "file_uploader_key" (VInt 0) st
     | Some _ => st
     end)
  = Some (match dict_get "file_uploader_key" st with
          | Some v => v
          | None => VInt 0
          end).
Proof.
  destruct (dict_get "file_uploader_key" st) eqn:E.
  - exact E.
  - apply dict_get_set_same.
Qed.

(** [render_sidebar] when the widget key is there and the selected model
    is configured. *)
Lemma render_sidebar_ok (models : models_config) (w : widgets) (st : dict)
      (wk : value) (entry : dict) :
  dict_get "widget_key" st = Some wk ->
  models_lookup (selectbox w) models = Some entry ->
  let st1 := dict_set "model_name" (option_value (selectbox w)) st in
  let key := match dict_get "file_uploader_key" st1 with
             | Some v => v
             | None => VInt 0
             end in
  let info := dict_set "region_name" (VStr region_name) entry in
  render_sidebar models w st
  = (inr (info,
          {| temperature := {| mantissa := 0; exponent := -1 |};
             top_p := {| mantissa := 10; exponent := -1 |};
             top_k := 200;
             max_tokens := 100000;
             system := define_system_prompt (radio w) |},
          file_uploader w),
     match dict_get "file_uploader_key" st1 with
     | None => dict_set "file_uploader_key" (VInt 0) st1
     | Some _ => st1
     end,
     [Selectbox (map fst models) (py_str wk ++ "_Model_Id");
      Radio radio_options;
      FileUploader ["jpg"; "jpeg"; "png"; "txt"; "pdf"; "csv"; "py"] key
        (match dict_get "image_upload_disabled" info with
         | Some v => v
         | None => VBool false
         end)]).
Proof.
  intros Hwk Hlk st1 key info. unfold render_sidebar.
  rewrite Hwk, Hlk. fold st1. rewrite (uploader_key_ready st1). reflexivity.
Qed.

Lemma render_sidebar_no_model (models : models_config) (w : widgets) (st : dict)
      (wk : value) :
  dict_get "widget_key" st = Some wk ->
  models_lookup (selectbox w) models = None ->
  render_sidebar models w st
  = (inl (KeyError (option_value (selectbox w))),
     dict_set "model_name" (option_value (selectbox w)) st,
     [Selectbox (map fst models) (py_str wk ++ "_Model_Id")]).
Proof.
  intros Hwk Hlk. unfold render_sidebar. now rewrite Hwk, Hlk.
Qed.

Lemma render_sidebar_no_key (models : models_config) (w : widgets) (st : dict) :
  dict_get "widget_key" st = None ->
  render_sidebar models w st = (inl (KeyError (VStr "widget_key")), st, []).
Proof.
  intros Hwk. unfold render_sidebar. now rewrite Hwk.
Qed.

(** What [render_sidebar] leaves in [st.session_state] for a key other
    than the two it writes. *)
Lemma render_sidebar_other_keys (models : models_config) (w : widgets) (st : dict)
      (k : string) :
  k <> "model_name" ->
  k <> "file_uploader_key" ->
  dict_get k (state_of (render_sidebar models w st)) = dict_get k st.
Proof.
  intros H1 H2. unfold state_of.
  destruct (dict_get "widget_key" st) as [wk|] eqn:Hwk.
  - destruct (models_lookup (selectbox w) models) as [entry|] eqn:Hlk.
    + rewrite (render_sidebar_ok _ _ _ _ _ Hwk Hlk). simpl.
      destruct (dict_get "file_uploader_key" _).
      * apply dict_get_set_other; congruence.
      * rewrite dict_get_set_other by congruence.
        apply dict_get_set_other; congruence.
    + rewrite (render_sidebar_no_model _ _ _ _ Hwk Hlk). simpl.
      apply dict_get_set_other; congruence.
  - now rewrite (render_sidebar_no_key _ _ _ Hwk).
Qed.

(** X13: [render_sidebar] returns a model's configuration entry with
    ["region_name"] set to line 14's region, whatever the entry said, and
    every other key as configured; it returns the uploader's files and the
    system prompt of the radio's option, and has stored the selected name
    under ["model_name"]. *)
Theorem render_sidebar_returns (models : models_config) (w : widgets) (st st' : dict)
        (info : dict) (kwargs : model_kwargs) (files : list UploadedFile)
        (rendered : list widget_call) :
  render_sidebar models w st = (inr (info, kwargs, files), st', rendered) ->
  exists entry,
    models_lookup (selectbox w) models = Some entry
    /\ dict_get "region_name" info = Some (VStr "us-east-1")
    /\ (forall k, k <> "region_name" -> dict_get k info = dict_get k entry)
    /\ system kwargs = define_system_prompt (radio w)
    /\ files = file_uploader w
    /\ dict_get "model_name" st' = Some (option_value (selectbox w)).
Proof.
  intros H.
  destruct (dict_get "widget_key" st) as [wk|] eqn:Hwk;
    [|rewrite (render_sidebar_no_key _ _ _ Hwk) in H; discriminate].
  destruct (models_lookup (selectbox w) models) as [entry|] eqn:Hlk;
    [|rewrite (render_sidebar_no_model _ _ _ _ Hwk Hlk) in H; discriminate].
  rewrite (render_sidebar_ok _ _ _ _ _ Hwk Hlk) in H.
  injection H as <- <- <- <- _. exists entry.
  split; [reflexivity|]. split; [apply dict_get_set_same|].
  split; [intros k Hk; apply dict_get_set_other; congruence|].
  split; [reflexivity|]. split; [reflexivity|].
  destruct (dict_get "file_uploader_key" _).
  - apply dict_get_set_same.
  - rewrite dict_get_set_other by discriminate. apply dict_get_set_same.
Qed.

(** X14: [render_sidebar] raises exactly when ["widget_key"] is missing or the
    selectbox's value is not a configured model, as with an empty
    configuration.  In the second case the name is already stored under
    ["model_name"], only the selectbox was rendered, and
    ["file_uploader_key"] is as it was. *)
Theorem render_sidebar_raises (models : models_config) (w : widgets) (st : dict) :
  ((exists e, outcome_of (render_sidebar models w st) = inl e)
   <-> dict_get "widget_key" st = None
       \/ models_lookup (selectbox w) models = None)
  /\ (forall wk,
        dict_get "widget_key" st = Some wk ->
        models_lookup (selectbox w) models = None ->
        outcome_of (render_sidebar models w st)
        = inl (KeyError (option_value (selectbox w)))
        /\ dict_get "model_name" (state_of (render_sidebar models w st))
           = Some (option_value (selectbox w))
        /\ dict_get "file_uploader_key" (state_of (render_sidebar models w st))
           = dict_get "file_uploader_key" st
        /\ rendered_of (render_sidebar models w st)
           = [Selectbox (map fst models) (py_str wk ++ "_Model_Id")])
  /\ (models = [] -> exists e, outcome_of (render_sidebar models w st) = inl e).
Proof.
  assert (Hiff : (exists e, outcome_of (render_sidebar models w st) = inl e)
                 <-> dict_get "widget_key" st = None
                     \/ models_lookup (selectbox w) models = None).
  { destruct (dict_get "widget_key" st) as [wk|] eqn:Hwk.
    - destruct (models_lookup (selectbox w) models) as [entry|] eqn:Hlk.
      + rewrite (render_sidebar_ok _ _ _ _ _ Hwk Hlk). unfold outcome_of. simpl.
        split; [intros [e He]; discriminate | intros [H|H]; discriminate].
      + rewrite (render_sidebar_no_model _ _ _ _ Hwk Hlk).
        split; [auto | intros _; eexists; reflexivity].
    - rewrite (render_sidebar_no_key _ _ _ Hwk).
      split; [auto | intros _; eexists; reflexivity]. }
  split; [exact Hiff|]. split.
  - intros wk Hwk Hlk. rewrite (render_sidebar_no_model _ _ _ _ Hwk Hlk).
    unfold outcome_of, state_of, rendered_of. simpl.
    split; [reflexivity|]. split; [apply dict_get_set_same|].
    split; [apply dict_get_set_other; discriminate | reflexivity].
  - intros ->. apply Hiff. right. reflexivity.
Qed.

Lemma render_sidebar_returns_witness :
  exists entry,
    models_lookup (Some "Claude 3 Sonnet") sample_models = Some entry
    /\ dict_get "region_name"
         [("model_id", VStr "anthropic.claude-3-sonnet-20240229-v1:0");
          ("region_name", VStr "us-east-1")]
       = Some (VStr "us-east-1")
    /\ (forall k, k <> "region_name" ->
          dict_get k [("model_id", VStr "anthropic.claude-3-sonnet-20240229-v1:0");
                      ("region_name", VStr "us-east-1")]
          = dict_get k entry)
    /\ system
         {| temperature := {| mantissa := 0; exponent := -1 |};
            top_p := {| mantissa := 10; exponent := -1 |};
            top_k := 200; max_tokens := 100000;
            system := summarize_prompt |}
       = define_system_prompt "Summarize"
    /\ @nil UploadedFile = []
    /\ dict_get "model_name"
         [("widget_key", VStr "4711"); ("model_name", VStr "Claude 3 Sonnet");
          ("file_uploader_key", VInt 0)]
       = Some (option_value (Some "Claude 3 Sonnet")).
Proof.
  apply (render_sidebar_returns sample_models
           (sample_widgets (Some "Claude 3 Sonnet") None)
           [("widget_key", VStr "4711")]
           [("widget_key", VStr "4711"); ("model_name", VStr "Claude 3 Sonnet");
            ("file_uploader_key", VInt 0)]
           [("model_id", VStr "anthropic.claude-3-sonnet-20240229-v1:0");
            ("region_name", VStr "us-east-1")]
           {| temperature := {| mantissa := 0; exponent := -1 |};
              top_p := {| mantissa := 10; exponent := -1 |};
              top_k := 200; max_tokens := 100000;
              system := summarize_prompt |}
           []
           [Selectbox ["Claude 3 Sonnet"; "Claude 2"] "4711_Model_Id";
            Radio radio_options;
            FileUploader ["jpg"; "jpeg"; "png"; "txt"; "pdf"; "csv"; "py"]
              (VInt 0) (VBool false)]).
  reflexivity.
Defined.

Lemma render_sidebar_raises_witness :
  outcome_of (render_sidebar sample_models (sample_widgets (Some "Titan") None)
                [("widget_key", VStr "4711")])
  = inl (KeyError (VStr "Titan"))
  /\ dict_get "model_name"
       (state_of (render_sidebar sample_models (sample_widgets (Some "Titan") None)
                    [("widget_key", VStr "4711")]))
     = Some (VStr "Titan")
  /\ dict_get "file_uploader_key"
       (state_of (render_sidebar sample_models (sample_widgets (Some "Titan") None)
                    [("widget_key", VStr "4711")]))
     = None
  /\ rendered_of (render_sidebar sample_models (sample_widgets (Some "Titan") None)
                    [("widget_key", VStr "4711")])
     = [Selectbox ["Claude 3 Sonnet"; "Claude 2"] "4711_Model_Id"].
Proof.
  apply (proj1 (proj2 (render_sidebar_raises sample_models
                         (sample_widgets (Some "Titan") None)
                         [("widget_key", VStr "4711")]))
           (VStr "4711")).
  - reflexivity.
  - reflexivity.
Defined.

Section Page.

Variable extract : UploadedFile -> option content_file.

Lemma ensure_widget_key_get (w : widgets) (st : dict) :
  dict_get "widget_key" (ensure_widget_key w st)
  = Some (match dict_get "widget_key" st with
          | Some v => v
          | None => VStr (py_str (VInt (randint w)))
          end).
Proof.
  unfold ensure_widget_key. destruct (dict_get "widget_key" st) eqn:E.
  - exact E.
  - apply dict_get_set_same.
Qed.

Lemma ensure_widget_key_other (w : widgets) (st : dict) (k : string) :
  k <> "widget_key" -> dict_get k (ensure_widget_key w st) = dict_get k st.
Proof.
  intros Hk. unfold ensure_widget_key.
  destruct (dict_get "widget_key" st); [reflexivity|].
  apply dict_get_set_other. congruence.
Qed.

Lemma page_session_state (libs : libraries) (w : widgets) (a : app_state) :
  session_state (state_of (page extract libs w a))
  = state_of (render_sidebar (load_model_config libs) w
                (ensure_widget_key w (session_state a))).
Proof.
  unfold page, state_of.
  destruct (render_sidebar _ w _) as [[[e|[[info kw] files]] st1] rendered];
    [reflexivity|]. simpl.
  destruct (dict_get "model_name" st1); [|reflexivity].
  destruct (chat_model libs _ _ _) as [formatter llm].
  destruct (main extract _ (chat a)) as [[|] chat']; reflexivity.
Qed.

Lemma page_rendered (libs : libraries) (w : widgets) (a : app_state) :
  rendered_of (page extract libs w a)
  = rendered_of (render_sidebar (load_model_config libs) w
                   (ensure_widget_key w (session_state a))).
Proof.
  unfold page, rendered_of.
  destruct (render_sidebar _ w _) as [[[e|[[info kw] files]] st1] rendered];
    [reflexivity|]. simpl.
  destruct (dict_get "model_name" st1); [|reflexivity].
  destruct (chat_model libs _ _ _) as [formatter llm].
  destruct (main extract _ (chat a)) as [[|] chat']; reflexivity.
Qed.

Lemma page_keeps_key (libs : libraries) (w : widgets) (a : app_state)
      (k : string) (v : value) :
  k <> "model_name" ->
  dict_get k (session_state a) = Some v ->
  dict_get k (session_state (state_of (page extract libs w a))) = Some v.
Proof.
  intros Hk Hv. rewrite page_session_state.
  assert (H0 : dict_get k (ensure_widget_key w (session_state a)) = Some v).
  { unfold ensure_widget_key.
    destruct (dict_get "widget_key" (session_state a)) eqn:E; [exact Hv|].
    rewrite dict_get_set_other; [exact Hv | congruence]. }
  set (st0 := ensure_widget_key w (session_state a)) in *.
  pose proof (ensure_widget_key_get w (session_state a)) as Hwk. fold st0 in Hwk.
  destruct (models_lookup (selectbox w) (load_model_config libs)) as [entry|] eqn:Hlk.
  - rewrite (render_sidebar_ok _ _ _ _ _ Hwk Hlk). unfold state_of. simpl.
    assert (H1 : dict_get k (dict_set "model_name" (option_value (selectbox w)) st0)
                 = Some v)
      by (rewrite dict_get_set_other; [exact H0 | congruence]).
    destruct (dict_get "file_uploader_key" _) eqn:E; [exact H1|].
    rewrite dict_get_set_other; [exact H1|]. congruence.
  - rewrite (render_sidebar_no_model _ _ _ _ Hwk Hlk). unfold state_of. simpl.
    rewrite dict_get_set_other; [exact H0 | congruence].
Qed.

Lemma pages_keep_key (libs : libraries) (ws : list widgets) (k : string) (v : value) :
  k <> "model_name" ->
  forall a : app_state,
    dict_get k (session_state a) = Some v ->
    dict_get k (session_state (pages extract libs ws a)) = Some v.
Proof.
  intros Hk. induction ws as [|w ws IH]; intros a Hv; [exact Hv|].
  simpl. apply IH. now apply page_keeps_key.
Qed.

(** X15: The first rerun of a session stores the decimal digits of the random
    draw under ["widget_key"]; every rerun renders the model selectbox,
    first of the sidebar's widgets, with the configured names as options
    and under the key made of that value and ["_Model_Id"], and renders no
    selectbox under another key; no later rerun changes ["widget_key"],
    whatever is drawn then. *)
Theorem widget_key_kept (libs : libraries) :
  (forall w a,
     dict_get "widget_key" (session_state (state_of (page extract libs w a)))
     = Some (match dict_get "widget_key" (session_state a) with
             | Some v => v
             | None => VStr (NilZero.string_of_int (Z.to_int (randint w)))
             end)
     /\ (exists rest,
           rendered_of (page extract libs w a)
           = Selectbox (map fst (load_model_config libs))
               (py_str (match dict_get "widget_key" (session_state a) with
                        | Some v => v
                        | None => VStr (NilZero.string_of_int (Z.to_int (randint w)))
                        end) ++ "_Model_Id")
             :: rest)
     /\ forall options key,
          In (Selectbox options key) (rendered_of (page extract libs w a)) ->
          key = py_str (match dict_get "widget_key" (session_state a) with
                        | Some v => v
                        | None => VStr (NilZero.string_of_int (Z.to_int (randint w)))
                        end) ++ "_Model_Id")
  /\ (forall ws a v,
        dict_get "widget_key" (session_state a) = Some v ->
        dict_get "widget_key" (session_state (pages extract libs ws a)) = Some v).
Proof.
  split.
  - intros w a.
    pose proof (ensure_widget_key_get w (session_state a)) as Hwk.
    simpl py_str in Hwk.
    split; [|split].
    + rewrite page_session_state.
      rewrite render_sidebar_other_keys by discriminate. exact Hwk.
    + rewrite page_rendered.
      destruct (models_lookup (selectbox w) (load_model_config libs))
        as [entry|] eqn:Hlk.
      * rewrite (render_sidebar_ok _ _ _ _ _ Hwk Hlk).
        unfold rendered_of. simpl. eexists. reflexivity.
      * rewrite (render_sidebar_no_model _ _ _ _ Hwk Hlk).
        unfold rendered_of. simpl. eexists. reflexivity.
    + intros options key Hin. rewrite page_rendered in Hin.
      destruct (models_lookup (selectbox w) (load_model_config libs))
        as [entry|] eqn:Hlk.
      * rewrite (render_sidebar_ok _ _ _ _ _ Hwk Hlk) in Hin.
        unfold rendered_of in Hin. simpl in Hin.
        destruct Hin as [H|[H|[H|[]]]]; try discriminate.
        now injection H as _ <-.
      * rewrite (render_sidebar_no_model _ _ _ _ Hwk Hlk) in Hin.
        unfold rendered_of in Hin. simpl in Hin.
        destruct Hin as [H|[]]. now injection H as _ <-.
  - intros ws a v. apply pages_keep_key. discriminate.
Qed.

End Page.

Section PageChat.

Variable extract : UploadedFile -> option content_file.

Lemma model_name_stored (sel : value) (st : dict) :
  dict_get "model_name"
    (match dict_get "file_uploader_key" (dict_set "model_name" sel st) with
     | None => dict_set "file_uploader_key" (VInt 0) (dict_set "model_name" sel st)
     | Some _ => dict_set "model_name" sel st
     end)
  = Some sel.
Proof.
  destruct (dict_get "file_uploader_key" _).
  - apply dict_get_set_same.
  - rewrite dict_get_set_other by discriminate. apply dict_get_set_same.
Qed.

(** X16: A rerun whose selected model is configured leaves ["file_uploader_key"]
    at the value it had, or at 0 when it had none, and renders the file
    uploader under that key; once set, no rerun changes it, so the script
    never resets the uploader by giving it a new key. *)
Theorem uploader_key_kept (libs : libraries) :
  (forall w a,
     models_lookup (selectbox w) (load_model_config libs) <> None ->
     dict_get "file_uploader_key"
       (session_state (state_of (page extract libs w a)))
     = Some (match dict_get "file_uploader_key" (session_state a) with
             | Some v => v
             | None => VInt 0
             end)
     /\ exists types disabled,
          In (FileUploader types
                (match dict_get "file_uploader_key" (session_state a) with
                 | Some v => v
                 | None => VInt 0
                 end)
                disabled)
             (rendered_of (page extract libs w a)))
  /\ (forall ws a v,
        dict_get "file_uploader_key" (session_state a) = Some v ->
        dict_get "file_uploader_key" (session_state (pages extract libs ws a))
        = Some v).
Proof.
  split.
  - intros w a Hlk. rewrite page_session_state, page_rendered.
    pose proof (ensure_widget_key_get w (session_state a)) as Hwk.
    destruct (models_lookup (selectbox w) (load_model_config libs))
      as [entry|] eqn:Hl; [clear Hlk | contradiction].
    rewrite (render_sidebar_ok _ _ _ _ _ Hwk Hl).
    unfold state_of, rendered_of. simpl.
    assert (Hk : dict_get "file_uploader_key"
                   (dict_set "model_name" (option_value (selectbox w))
                      (ensure_widget_key w (session_state a)))
                 = dict_get "file_uploader_key" (session_state a)).
    { rewrite dict_get_set_other by discriminate.
      apply ensure_widget_key_other. discriminate. }
    split.
    + rewrite uploader_key_ready. now rewrite Hk.
    + rewrite Hk. eexists. eexists. right. right. left. reflexivity.
  - intros ws a v. apply pages_keep_key. discriminate.
Qed.

(** X17: The script reaches the chat part exactly when the selectbox's value is
    a configured model.  If it is not, the rerun ends in a [KeyError] with
    the transcript and the collaborators' calls untouched; if it is, the
    chat part runs with the chat input, the uploader's files and the chat
    model built for the selected name, the entry with its region overridden
    and the radio's system prompt, and its outcome is the script's. *)
Theorem page_chat_part (libs : libraries) (w : widgets) (a : app_state) :
  (models_lookup (selectbox w) (load_model_config libs) = None ->
   outcome_of (page extract libs w a)
   = PageKeyError (KeyError (option_value (selectbox w)))
   /\ chat (state_of (page extract libs w a)) = chat a)
  /\ (forall entry,
        models_lookup (selectbox w) (load_model_config libs) = Some entry ->
        exists c,
          prompt c = chat_input w
          /\ uploaded_files c = file_uploader w
          /\ (format_prompt c, conversation c)
             = chat_model libs (option_value (selectbox w))
                 (dict_set "region_name" (VStr region_name) entry)
                 {| temperature := {| mantissa := 0; exponent := -1 |};
                    top_p := {| mantissa := 10; exponent := -1 |};
                    top_k := 200;
                    max_tokens := 100000;
                    system := define_system_prompt (radio w) |}
          /\ chat (state_of (page extract libs w a)) = snd (main extract c (chat a))
          /\ outcome_of (page extract libs w a)
             = match fst (main extract c (chat a)) with
               | Returned _ => PageReturned
               | Raised e => PageRaised e
               end).
Proof.
  pose proof (ensure_widget_key_get w (session_state a)) as Hwk.
  split.
  - intros Hl. unfold page.
    rewrite (render_sidebar_no_model _ _ _ _ Hwk Hl). split; reflexivity.
  - intros entry Hl. unfold page.
    rewrite (render_sidebar_ok _ _ _ _ _ Hwk Hl). cbv zeta.
    rewrite model_name_stored.
    destruct (chat_model libs _ _ _) as [formatter llm] eqn:Hcm.
    eexists {| prompt := chat_input w; uploaded_files := file_uploader w;
               format_prompt := formatter; conversation := llm |}.
    split; [reflexivity|]. split; [reflexivity|]. split; [reflexivity|].
    destruct (main extract _ (chat a)) as [[[]|e] chat']; split; reflexivity.
Qed.

End PageChat.

Lemma widget_key_kept_witness :
  (exists rest,
     rendered_of (page extract_by_mime sample_libraries
                    (sample_widgets (Some "Claude 2") (Some "hi")) new_app)
     = Selectbox ["Claude 3 Sonnet"; "Claude 2"] "4711_Model_Id" :: rest)
  /\ (forall options key,
     In (Selectbox options key)
        (rendered_of (page extract_by_mime sample_libraries
                        (sample_widgets (Some "Claude 2") (Some "hi")) new_app)) ->
     key = "4711_Model_Id")
  /\ dict_get "widget_key"
       (session_state
          (pages extract_by_mime sample_libraries
             [{| randint := 12; selectbox := Some "Claude 2"; radio := "Analyze";
                 file_uploader := []; chat_input := None |};
              {| randint := 999999; selectbox := Some "Titan"; radio := "Analyze";
                 file_uploader := []; chat_input := Some "q" |}]
             {| session_state := [("widget_key", VStr "4711")];
                chat := new_session |}))
     = Some (VStr "4711").
Proof.
  split; [|split].
  - apply (proj1 (proj2 (proj1 (widget_key_kept extract_by_mime sample_libraries)
                           (sample_widgets (Some "Claude 2") (Some "hi")) new_app))).
  - apply (proj2 (proj2 (proj1 (widget_key_kept extract_by_mime sample_libraries)
                           (sample_widgets (Some "Claude 2") (Some "hi")) new_app))).
  - apply (proj2 (widget_key_kept extract_by_mime sample_libraries)).
    reflexivity.
Defined.

Lemma uploader_key_kept_witness :
  dict_get "file_uploader_key"
    (session_state
       (state_of (page extract_by_mime sample_libraries
                    (sample_widgets (Some "Claude 2") (Some "hi")) new_app)))
  = Some (VInt 0)
  /\ (exists types disabled,
        In (FileUploader types (VInt 0) disabled)
           (rendered_of (page extract_by_mime sample_libraries
                           (sample_widgets (Some "Claude 2") (Some "hi")) new_app)))
  /\ dict_get "file_uploader_key"
       (session_state
          (pages extract_by_mime sample_libraries
             [sample_widgets (Some "Titan") None;
              sample_widgets (Some "Claude 2") (Some "hi")]
             {| session_state := [("file_uploader_key", VInt 3)];
                chat := new_session |}))
     = Some (VInt 3).
Proof.
  destruct (proj1 (uploader_key_kept extract_by_mime sample_libraries)
              (sample_widgets (Some "Claude 2") (Some "hi")) new_app)
    as [H1 H2].
  - discriminate.
  - split; [exact H1|]. split; [exact H2|].
    apply (proj2 (uploader_key_kept extract_by_mime sample_libraries)).
    reflexivity.
Defined.

Lemma page_chat_part_witness :
  (outcome_of (page extract_by_mime sample_libraries
                 (sample_widgets (Some "Titan") (Some "hi")) new_app)
   = PageKeyError (KeyError (VStr "Titan"))
   /\ chat (state_of (page extract_by_mime sample_libraries
                        (sample_widgets (Some "Titan") (Some "hi")) new_app))
      = new_session)
  /\ exists c,
       prompt c = Some "hi"
       /\ uploaded_files c = []
       /\ (format_prompt c, conversation c)
          = chat_model sample_libraries (VStr "Claude 2")
              (dict_set "region_name" (VStr region_name)
                 [("model_id", VStr "anthropic.claude-v2:1");
                  ("image_upload_disabled", VBool true)])
              {| temperature := {| mantissa := 0; exponent := -1 |};
                 top_p := {| mantissa := 10; exponent := -1 |};
                 top_k := 200;
                 max_tokens := 100000;
                 system := define_system_prompt "Summarize" |}
       /\ chat (state_of (page extract_by_mime sample_libraries
                            (sample_widgets (Some "Claude 2") (Some "hi")) new_app))
          = snd (main extract_by_mime c new_session)
       /\ outcome_of (page extract_by_mime sample_libraries
                        (sample_widgets (Some "Claude 2") (Some "hi")) new_app)
          = match fst (main extract_by_mime c new_session) with
            | Returned _ => PageReturned
            | Raised e => PageRaised e
            end.
Proof.
  split.
  - apply (proj1 (page_chat_part extract_by_mime sample_libraries
                    (sample_widgets (Some "Titan") (Some "hi")) new_app)).
    reflexivity.
  - apply (proj2 (page_chat_part extract_by_mime sample_libraries
                    (sample_widgets (Some "Claude 2") (Some "hi")) new_app)
             [("model_id", VStr "anthropic.claude-v2:1");
              ("image_upload_disabled", VBool true)]).
    reflexivity.
Defined.

(** * Questions that stay unanswered *)

Section Unanswered.

Variable extract : UploadedFile -> option content_file.

Lemma failed_rerun_adds_question (c : cycle) (s : session) :
  has_prompt c = true ->
  (forall input, exists e, conversation c input = Failed e) ->
  exists u, role u = "user" /\ seeded (snd (main extract c s)) = (seeded s ++ [u])%list.
Proof.
  intros Hp Hfail. destruct (prompt_gives_turn extract c s Hp) as [u Hu].
  exists u. split; [exact (new_turn_is_user extract _ _ _ Hu)|].
  rewrite main_eq, Hu. destruct (Hfail (payload_of u)) as [e ->]. reflexivity.
Qed.

(** X18: Reruns with a chat input whose Model Client call fails pile their user
    Turns up one behind the other: after them the transcript is what it
    was, followed by one user Turn per rerun and no assistant Turn. *)
Theorem unanswered_turns_pile_up (cycles : list cycle) :
  Forall (fun c => has_prompt c = true
                   /\ forall input, exists e, conversation c input = Failed e)
         cycles ->
  forall s, exists turns,
    seeded (run extract cycles s) = (seeded s ++ turns)%list
    /\ length turns = length cycles
    /\ Forall (fun m => role m = "user") turns.
Proof.
  induction 1 as [|c cycles [Hp Hfail] _ IH]; intros s.
  - exists []. simpl. rewrite app_nil_r. repeat split. constructor.
  - simpl run.
    destruct (failed_rerun_adds_question c s Hp Hfail) as [u [Hu Hs]].
    destruct (IH (snd (main extract c s))) as [turns [Ht [Hlen Hall]]].
    exists (u :: turns). rewrite Ht, Hs, <- app_assoc. simpl.
    split; [reflexivity|]. split; [now rewrite Hlen|].
    constructor; assumption.
Qed.

End Unanswered.

Lemma unanswered_turns_pile_up_witness :
  exists turns,
    seeded (run extract_by_mime
              [ask (Some "q") [] (Failed "ProviderError");
               ask (Some "q") [battery_txt] (Failed "StreamError")]
              new_session)
    = ([INIT_MESSAGE] ++ turns)%list
    /\ length turns = 2
    /\ Forall (fun m => role m = "user") turns.
Proof.
  apply (unanswered_turns_pile_up extract_by_mime
           [ask (Some "q") [] (Failed "ProviderError");
            ask (Some "q") [battery_txt] (Failed "StreamError")]).
  constructor.
  - split; [reflexivity|]. intros input. exists "ProviderError". reflexivity.
  - constructor; [|constructor].
    split; [reflexivity|]. intros input. exists "StreamError". reflexivity.
Defined.
